(** * android-screen-grabber: a shallow embedding of [AndroidScreenshotTool]

    The tool is a Python class around the [adb] command line utility.  The
    embedding below follows [android-screen-grabber.py] method by method:

    - Python text ([str]) is a list of Unicode code points, so that
      [len], indexing and the per-character methods mean what they mean in
      Python;
    - Python floats are IEEE 754 binary64 numbers ([SpecFloat], precision 53,
      [emax] 1024);
    - the methods run in a state-and-exception monad: the state holds the
      object's two attributes together with the log of subprocesses started
      and the text printed so far; exceptions are Python's;
    - everything outside the program (the [adb] binary, the clock, the
      Unicode tables and library functions of the Python runtime) is a
      variable of the development. *)

From Stdlib Require Import ZArith NArith List String Ascii Bool Lia.
From Stdlib Require Import DecimalString DecimalNat DecimalPos SpecFloat.
From Stdlib Require Import RelationClasses.
Import ListNotations.

Local Open Scope N_scope.

(** ** Python text *)

Module PyStr.

(** A [str] is a sequence of code points. *)
Definition char := N.
Definition pystr := list char.

(** String literals of the source, for the ASCII part of a message. *)
Definition lit (s : string) : pystr := map N_of_ascii (list_ascii_of_string s).

Definition is_ascii (c : char) : bool := c <? 128.

Definition eqb (a b : pystr) : bool :=
  if list_eq_dec N.eq_dec a b then true else false.

(** [str.isspace] of one character: the white space table of CPython's
    [_PyUnicode_IsWhitespace]. *)
Definition isspace (c : char) : bool :=
  ((9 <=? c) && (c <=? 13)) || ((28 <=? c) && (c <=? 32))
  || (c =? 133) || (c =? 160) || (c =? 5760)
  || ((8192 <=? c) && (c <=? 8202))
  || (c =? 8232) || (c =? 8233) || (c =? 8239) || (c =? 8287) || (c =? 12288).

Definition ascii_isalnum (c : char) : bool :=
  ((48 <=? c) && (c <=? 57)) || ((65 <=? c) && (c <=? 90))
  || ((97 <=? c) && (c <=? 122)).

Definition ascii_lower (c : char) : char :=
  if (65 <=? c) && (c <=? 90) then c + 32 else c.

Fixpoint lstrip (s : pystr) : pystr :=
  match s with
  | c :: s' => if isspace c then lstrip s' else s
  | [] => []
  end.

Definition rstrip (s : pystr) : pystr := rev (lstrip (rev s)).

(** [s.strip()] *)
Definition strip (s : pystr) : pystr := rstrip (lstrip s).

Fixpoint startswith (p s : pystr) : bool :=
  match p, s with
  | [], _ => true
  | a :: p', b :: s' => (a =? b) && startswith p' s'
  | _ :: _, [] => false
  end.

(** [sub in s] *)
Fixpoint contains (sub s : pystr) : bool :=
  startswith sub s ||
  match s with
  | [] => false
  | _ :: s' => contains sub s'
  end.

(** [s.split(sep)] for a non-empty [sep]: occurrences are taken from the left
    and do not overlap.  [skip] counts the characters of a separator that was
    just matched and still has to be passed over; [cur] is the piece under
    construction, last character first. *)
Fixpoint split_from (sep : pystr) (skip : nat) (cur : pystr) (s : pystr)
  : list pystr :=
  match s with
  | [] => [rev cur]
  | c :: s' =>
      match skip with
      | S k => split_from sep k cur s'
      | O =>
          if startswith sep s
          then rev cur :: split_from sep (List.length sep - 1) [] s'
          else split_from sep 0 (c :: cur) s'
      end
  end.

Definition split (sep s : pystr) : list pystr := split_from sep 0 [] s.

(** [s.split()]: pieces between runs of white space, no empty piece. *)
Fixpoint split_ws_from (cur : pystr) (s : pystr) : list pystr :=
  match s with
  | [] => match cur with [] => [] | _ => [rev cur] end
  | c :: s' =>
      if isspace c
      then match cur with
           | [] => split_ws_from [] s'
           | _ => rev cur :: split_ws_from [] s'
           end
      else split_ws_from (c :: cur) s'
  end.

Definition split_ws (s : pystr) : list pystr := split_ws_from [] s.

(** [s.replace(old, new)] for a non-empty [old]. *)
Fixpoint replace_from (old new : pystr) (skip : nat) (s : pystr) : pystr :=
  match s with
  | [] => []
  | c :: s' =>
      match skip with
      | S k => replace_from old new k s'
      | O =>
          if startswith old s
          then new ++ replace_from old new (List.length old - 1) s'
          else c :: replace_from old new 0 s'
      end
  end.

Definition replace (old new s : pystr) : pystr := replace_from old new 0 s.

(** [str(n)] for an [int]. *)
Definition str_of_nat (n : nat) : pystr := lit (NilZero.string_of_uint (Nat.to_uint n)).
Definition str_of_Z (z : Z) : pystr := lit (NilZero.string_of_int (Z.to_int z)).

(** [format(n, "0<width>d")] for a non-negative [n]. *)
Definition zero_pad (width : nat) (n : nat) : pystr :=
  let s := str_of_nat n in
  repeat 48 (width - List.length s) ++ s.

End PyStr.
Import PyStr.

(** ** Python exceptions and results *)

Inductive exn :=
| FileNotFoundError
| CalledProcessError (cmd : list pystr) (returncode : Z)
| KeyboardInterrupt
| EOFError
| ValueError
| IndexError
| ZeroDivisionError
| OverflowError
| OSError
| SystemExit (code : Z).

Inductive result (A : Type) :=
| Ret (a : A)
| Raise (e : exn).
Arguments Ret {A} a.
Arguments Raise {A} e.

(** ** Python floats and the arithmetic of [get_display_info] *)

Module PyFloat.

Local Open Scope Z_scope.

Definition prec : Z := 53.
Definition emax : Z := 1024.

Definition float := spec_float.

Definition is_zero (x : float) : bool :=
  match x with S754_zero _ => true | _ => false end.

(** Conversion of an [int] operand to [float]: rounded to nearest, ties to
    even; an [int] beyond the range of binary64 raises [OverflowError]. *)
Definition float_of_int (n : Z) : result float :=
  match binary_normalize prec emax n 0 false with
  | S754_infinity _ => Raise OverflowError
  | x => Ret x
  end.

(** [a / b] on two [int]s: the correctly rounded quotient. *)
Definition int_truediv (a b : Z) : result float :=
  if b =? 0 then Raise ZeroDivisionError
  else if a =? 0 then Ret (S754_zero (b <? 0))
  else
    let '(q, e, l) := SFdiv_core_binary prec emax (Z.abs a) 0 (Z.abs b) 0 in
    match binary_round_aux prec emax (xorb (a <? 0) (b <? 0)) q e l with
    | S754_infinity _ => Raise OverflowError
    | x => Ret x
    end.

(** [x / y] on two [float]s. *)
Definition float_truediv (x y : float) : result float :=
  if is_zero y then Raise ZeroDivisionError
  else Ret (SFdiv prec emax x y).

(** [n / y] with an [int] on the left and a [float] on the right. *)
Definition int_float_truediv (n : Z) (y : float) : result float :=
  match float_of_int n with
  | Ret x => float_truediv x y
  | Raise e => Raise e
  end.

(** [math.ceil(x)] *)
Definition ceil (x : float) : result Z :=
  match x with
  | S754_zero _ => Ret 0
  | S754_infinity _ => Raise OverflowError
  | S754_nan => Raise ValueError
  | S754_finite s m e =>
      let n := cond_Zopp s (Zpos m) in
      Ret (if 0 <=? e then n * 2 ^ e else - ((- n) / 2 ^ (- e)))
  end.

(** The expression [math.ceil(px / (density / 160))] of the source. *)
Definition to_dp (px density : Z) : result Z :=
  match int_truediv density 160 with
  | Raise e => Raise e
  | Ret scale =>
      match int_float_truediv px scale with
      | Raise e => Raise e
      | Ret q => ceil q
      end
  end.

End PyFloat.

(** ** The world outside the program *)

(** What starting a process gives: the binary is not on the path, or the
    process ran and exited with a return code and some standard output. *)
Inductive proc_outcome :=
| NotFound
| Exited (returncode : Z) (out : pystr).

Definition argv := list pystr.

(** [datetime.now()] *)
Record datetime := {
  year : nat; month : nat; day : nat;
  hour : nat; minute : nat; second : nat
}.

(** The device, the clock and the file system.  A process outcome may depend
    on every process started before it. *)
Record world := {
  spawn : list (argv * proc_outcome) -> argv -> proc_outcome;
  now : nat -> datetime;
  mkdir : pystr -> option exn
}.

(** The parts of the Python runtime the program calls and this development
    does not define: the Unicode database beyond ASCII, the text of a
    [CalledProcessError], and [pathlib]. *)
Record runtime := {
  uni_isalnum : char -> bool;
  uni_lower : pystr -> pystr;
  uni_decimal : char -> option N;
  str_CalledProcessError : argv -> Z -> pystr;
  path_join : pystr -> pystr -> pystr;
  path_absolute : pystr -> pystr
}.

(** What [input()] meets on standard input: a line (without its end of line)
    or Ctrl-C while waiting for it. *)
Inductive input_event :=
| Line (text : pystr)
| Interrupt.

(** ** The state of a run

    [output_dir] and [screenshot_count] are the attributes of the
    [AndroidScreenshotTool] object; [procs] logs the processes started (with
    what became of them), [stdout] the pieces of text printed, [clock] the
    number of times the clock was read. *)
Record state := {
  output_dir : pystr;
  screenshot_count : nat;
  procs : list (argv * proc_outcome);
  stdout : list pystr;
  clock : nat
}.

Definition M (A : Type) : Type := state -> result A * state.

Definition ret {A} (a : A) : M A := fun s => (Ret a, s).

Definition raise {A} (e : exn) : M A := fun s => (Raise e, s).

Definition bind {A B} (c : M A) (k : A -> M B) : M B :=
  fun s =>
    match c s with
    | (Ret a, s') => k a s'
    | (Raise e, s') => (Raise e, s')
    end.

(** [try: c except ...: h e]; the handler says which exceptions it takes. *)
Definition try_except {A} (c : M A) (h : exn -> option (M A)) : M A :=
  fun s =>
    match c s with
    | (Ret a, s') => (Ret a, s')
    | (Raise e, s') =>
        match h e with
        | Some k => k s'
        | None => (Raise e, s')
        end
    end.

Definition lift {A} (r : result A) : M A := fun s => (r, s).

Declare Scope py_scope.
Delimit Scope py_scope with py.
Notation "x <- c ;; k" := (bind c (fun x => k))
  (at level 61, c at next level, right associativity) : py_scope.
Notation "c ;; k" := (bind c (fun _ => k))
  (at level 61, right associativity) : py_scope.
Local Open Scope py_scope.

Definition nl : pystr := [10].

(** [print(text, end=e)] *)
Definition print_end (text e : pystr) : M unit :=
  fun s =>
    (Ret tt,
     {| output_dir := output_dir s; screenshot_count := screenshot_count s;
        procs := procs s; stdout := stdout s ++ [text ++ e];
        clock := clock s |}).

Definition print (text : pystr) : M unit := print_end text nl.

(** [d.strftime("%Y%m%d_%H%M%S")]: the year on four digits, the other
    fields on two. *)
Definition strftime (d : datetime) : pystr :=
  zero_pad 4 (year d) ++ zero_pad 2 (month d) ++ zero_pad 2 (day d)
  ++ lit "_" ++ zero_pad 2 (hour d) ++ zero_pad 2 (minute d)
  ++ zero_pad 2 (second d).

Definition bump_count : M unit :=
  fun s =>
    (Ret tt,
     {| output_dir := output_dir s;
        screenshot_count := S (screenshot_count s);
        procs := procs s; stdout := stdout s; clock := clock s |}).

(** Python's truth value of an optional string. *)
Definition truthy (o : option pystr) : bool :=
  match o with
  | Some (_ :: _) => true
  | _ => false
  end.

(** Emoji of the messages. *)
Definition cross_mark : pystr := [0x274C].
Definition check_mark : pystr := [0x2705].
Definition phone : pystr := [0x1F4F1].
Definition ruler : pystr := [0x1F4D0].
Definition camera : pystr := [0x1F4F8].
Definition floppy : pystr := [0x1F4BE].
Definition folder : pystr := [0x1F4C1].
Definition bullet : pystr := [0x2022].

Definition device_path : pystr := lit "/sdcard/screenshot_temp.png".

Record display_info := {
  physical : Z * Z;
  logical : Z * Z;
  density : Z
}.

(** ** The methods of [AndroidScreenshotTool] *)

Section Tool.

Variable rt : runtime.
Variable w : world.

(** [c.isalnum()] *)
Definition isalnum (c : char) : bool :=
  if is_ascii c then ascii_isalnum c else uni_isalnum rt c.

(** [s.lower()] *)
Definition lower (s : pystr) : pystr :=
  if forallb is_ascii s then map ascii_lower s else uni_lower rt s.

(** [int(s)]: white space around, an optional sign, then decimal digits, a
    single underscore allowed between two digits. *)
Definition digit_val (c : char) : option N :=
  if (48 <=? c) && (c <=? 57) then Some (c - 48)
  else if is_ascii c then None
  else uni_decimal rt c.

Fixpoint parse_digits (acc : N) (after_digit : bool) (s : pystr) : option N :=
  match s with
  | [] => if after_digit then Some acc else None
  | c :: s' =>
      if c =? 95
      then (if after_digit then parse_digits acc false s' else None)
      else match digit_val c with
           | Some d => parse_digits (10 * acc + d) true s'
           | None => None
           end
  end.

Definition py_int (s : pystr) : result Z :=
  let body (neg : bool) (digits : pystr) :=
    match parse_digits 0 false digits with
    | Some n => Ret (if neg then (- Z.of_N n)%Z else Z.of_N n)
    | None => Raise ValueError
    end in
  match strip s with
  | [] => Raise ValueError
  | c :: r =>
      if c =? 45 then body true r
      else if c =? 43 then body false r
      else body false (c :: r)
  end.

(** [subprocess.run(cmd, capture_output=True, check=True)]: the standard
    output of the process, [FileNotFoundError] when the binary is missing,
    [CalledProcessError] when the return code is not zero. *)
Definition run (cmd : argv) : M pystr :=
  fun s =>
    let o := spawn w (procs s) cmd in
    let s' :=
      {| output_dir := output_dir s; screenshot_count := screenshot_count s;
         procs := procs s ++ [(cmd, o)]; stdout := stdout s;
         clock := clock s |} in
    match o with
    | NotFound => (Raise FileNotFoundError, s')
    | Exited rc out =>
        if (rc =? 0)%Z then (Ret out, s')
        else (Raise (CalledProcessError cmd rc), s')
    end.

(** [datetime.now().strftime("%Y%m%d_%H%M%S")] *)
Definition timestamp_now : M pystr :=
  fun s =>
    (Ret (strftime (now w (clock s))),
     {| output_dir := output_dir s; screenshot_count := screenshot_count s;
        procs := procs s; stdout := stdout s; clock := S (clock s) |}).

(** The lines of [adb devices] that count as a connected device. *)
Definition connected_devices (out : pystr) : list pystr :=
  filter (fun line =>
            negb (PyStr.eqb (strip line) []) && contains (lit "device") line)
         (tl (split nl out)).

Definition check_adb_connection : M bool :=
  try_except
    (out <- run [lit "adb"; lit "devices"] ;;
     match connected_devices out with
     | [] =>
         print (cross_mark ++ lit " No Android device connected!") ;;
         print (nl ++ lit "Make sure:") ;;
         print (lit "  1. Your phone is connected via USB") ;;
         print (lit "  2. USB debugging is enabled") ;;
         print (lit "  3. You've authorized the computer on your phone") ;;
         ret false
     | d :: _ =>
         match split_ws d with
         | [] => raise IndexError
         | serial :: _ =>
             print (check_mark ++ lit " Connected to device: " ++ serial) ;;
             ret true
         end
     end)
    (fun e =>
       match e with
       | FileNotFoundError =>
           Some (print (cross_mark ++ lit " ADB not found!") ;;
                 print (nl ++ lit "Install Android Platform Tools:") ;;
                 print (lit "  brew install android-platform-tools") ;;
                 ret false)
       | CalledProcessError cmd rc =>
           Some (print (cross_mark ++ lit " Error running ADB: "
                        ++ str_CalledProcessError rt cmd rc) ;;
                 ret false)
       | _ => None
       end).

Definition unknown : pystr := lit "Unknown".

Definition get_device_info : M (pystr * pystr) :=
  try_except
    (model <- run [lit "adb"; lit "shell"; lit "getprop";
                   lit "ro.product.model"] ;;
     version <- run [lit "adb"; lit "shell"; lit "getprop";
                     lit "ro.build.version.release"] ;;
     ret (strip model, strip version))
    (fun _ => Some (ret (unknown, unknown))).

Definition size_label : pystr := lit "Physical size:".
Definition density_label : pystr := lit "Physical density:".

(** [l[1]] *)
Definition second_item (l : list pystr) : result pystr :=
  match l with
  | _ :: x :: _ => Ret x
  | _ => Raise IndexError
  end.

(** [width, height = map(int, resolution.split('x'))] *)
Definition parse_resolution (resolution : pystr) : result (Z * Z) :=
  match split (lit "x") resolution with
  | [a; b] =>
      match py_int a with
      | Raise e => Raise e
      | Ret width =>
          match py_int b with
          | Raise e => Raise e
          | Ret height => Ret (width, height)
          end
      end
  | _ => Raise ValueError
  end.

Definition get_display_info : M (option display_info) :=
  try_except
    (size_out <- run [lit "adb"; lit "shell"; lit "wm"; lit "size"] ;;
     let size_line := strip size_out in
     if contains size_label size_line then
       resolution <- lift (second_item (split size_label size_line)) ;;
       wh <- lift (parse_resolution (strip resolution)) ;;
       let '(width, height) := wh in
       density_out <- run [lit "adb"; lit "shell"; lit "wm"; lit "density"] ;;
       let density_line := strip density_out in
       if contains density_label density_line then
         d <- lift (second_item (split density_label density_line)) ;;
         density <- lift (py_int (strip d)) ;;
         dp_width <- lift (PyFloat.to_dp width density) ;;
         dp_height <- lift (PyFloat.to_dp height density) ;;
         ret (Some {| physical := (width, height);
                      logical := (dp_width, dp_height);
                      density := density |})
       else ret None
     else ret None)
    (fun _ => Some (ret None)).

Definition display_device_info : M unit :=
  mv <- get_device_info ;;
  let '(model, version) := mv in
  print (phone ++ lit " Device: " ++ model ++ lit " (Android " ++ version
         ++ lit ")") ;;
  info <- get_display_info ;;
  match info with
  | Some i =>
      print (ruler ++ lit " Resolution: " ++ str_of_Z (fst (physical i))
             ++ lit "x" ++ str_of_Z (snd (physical i))
             ++ lit "px (physical) | " ++ str_of_Z (fst (logical i))
             ++ lit "x" ++ str_of_Z (snd (logical i))
             ++ lit "dp (logical)") ;;
      print (lit "   Density: " ++ str_of_Z (density i) ++ lit " DPI")
  | None => print (ruler ++ lit " Resolution: Unable to detect")
  end.

(** The name cleaning of [capture_screenshot]. *)
Definition clean_name (screen_name : pystr) : pystr :=
  map (fun c => if isalnum c || (c =? 45) || (c =? 95) then c else 95)
      screen_name.

(** The file name [capture_screenshot] chooses, from the counter as it is
    after the increment. *)
Definition filename (screen_name : option pystr) (count : nat)
           (timestamp : pystr) : pystr :=
  match screen_name with
  | Some (c :: r) => clean_name (c :: r) ++ lit "_" ++ timestamp ++ lit ".png"
  | _ => lit "screenshot_" ++ zero_pad 3 count ++ lit "_" ++ timestamp
         ++ lit ".png"
  end.

Definition screencap_cmd : argv :=
  [lit "adb"; lit "shell"; lit "screencap"; lit "-p"; device_path].
Definition pull_cmd (filepath : pystr) : argv :=
  [lit "adb"; lit "pull"; device_path; filepath].
Definition rm_cmd : argv := [lit "adb"; lit "shell"; lit "rm"; device_path].

Definition capture_screenshot (screen_name : option pystr) : M bool :=
  timestamp <- timestamp_now ;;
  bump_count ;;
  fun s =>
    let filepath :=
      path_join rt (output_dir s)
                (filename screen_name (screenshot_count s) timestamp) in
    try_except
      (print_end (camera ++ lit " Capturing screenshot...") (lit " ") ;;
       run screencap_cmd ;;
       run (pull_cmd filepath) ;;
       run rm_cmd ;;
       print (check_mark ++ lit " Saved: " ++ filepath) ;;
       ret true)
      (fun e =>
         match e with
         | CalledProcessError cmd rc =>
             Some (print (cross_mark ++ lit " Failed: "
                          ++ str_CalledProcessError rt cmd rc) ;;
                   ret false)
         | _ => None
         end)
      s.

Definition rule : pystr := repeat 61 60.

Definition prompt : pystr :=
  lit "Enter screen name (or ENTER for auto, i=info, q=quit): ".

Definition done_line (count : nat) : pystr :=
  check_mark ++ lit " Done! Captured " ++ str_of_nat count
  ++ lit " screenshots".

Definition location_line (dir : pystr) : pystr :=
  folder ++ lit " Location: " ++ path_absolute rt dir.

(** The two prints of the [q] branch. *)
Definition quit_summary : M unit :=
  fun s =>
    (print (nl ++ done_line (screenshot_count s)) ;;
     print (location_line (output_dir s))) s.

(** The two prints of the [KeyboardInterrupt] handler. *)
Definition interrupt_summary : M unit :=
  fun s =>
    (print (nl ++ nl ++ done_line (screenshot_count s)) ;;
     print (location_line (output_dir s))) s.

(** The [while True] loop of [run_interactive], over what is left on
    standard input; [input] shows its prompt, then reads. At the end of the
    input it raises [EOFError]. *)
Fixpoint interactive_loop (inp : list input_event) : M unit :=
  print_end prompt [] ;;
  match inp with
  | [] => raise EOFError
  | Interrupt :: _ => raise KeyboardInterrupt
  | Line text :: rest =>
      let user_input := strip text in
      if PyStr.eqb (lower user_input) (lit "q") then quit_summary
      else if PyStr.eqb (lower user_input) (lit "i") then
        display_device_info ;; interactive_loop rest
      else if PyStr.eqb user_input [] then
        capture_screenshot None ;; interactive_loop rest
      else
        capture_screenshot (Some user_input) ;; interactive_loop rest
  end.

(** The loop inside its [try ... except KeyboardInterrupt]. *)
Definition guarded_loop (inp : list input_event) : M unit :=
  try_except (interactive_loop inp)
    (fun e =>
       match e with
       | KeyboardInterrupt => Some interrupt_summary
       | _ => None
       end).

Definition run_interactive (inp : list input_event) : M unit :=
  print (nl ++ rule) ;;
  print (lit "  Android Screenshot Capture Tool") ;;
  print rule ;;
  connected <- check_adb_connection ;;
  if negb connected then ret tt
  else
    display_device_info ;;
    (fun s =>
       print (floppy ++ lit " Saving to: " ++ path_absolute rt (output_dir s)
              ++ nl) s) ;;
    print (lit "Instructions:") ;;
    print (lit "  " ++ bullet ++ lit " Navigate your app on the phone normally") ;;
    print (lit "  " ++ bullet
           ++ lit " Type a screen name (e.g., 'login', 'dashboard') and press ENTER to capture") ;;
    print (lit "  " ++ bullet
           ++ lit " Or just press ENTER without typing for auto-naming") ;;
    print (lit "  " ++ bullet ++ lit " Type 'i' then ENTER to show device info") ;;
    print (lit "  " ++ bullet ++ lit " Type 'q' then ENTER to quit") ;;
    print (nl ++ rule) ;;
    print (lit "Ready! Start capturing screenshots..." ++ nl) ;;
    guarded_loop inp.

(** The parsed command line. *)
Record args := {
  arg_output : pystr;
  arg_single : option pystr;
  arg_name : option pystr
}.

(** [AndroidScreenshotTool(output_dir)] in a fresh process. *)
Definition new_tool (dir : pystr) : state :=
  {| output_dir := dir; screenshot_count := 0; procs := [];
     stdout := []; clock := 0 |}.

(** The screen name of single-shot mode:
    [args.name if args.name else args.single.replace('.png', '')]. *)
Definition single_screen_name (name : option pystr) (single : pystr) : pystr :=
  match name with
  | Some (c :: r) => c :: r
  | _ => replace (lit ".png") [] single
  end.

Definition main (a : args) (inp : list input_event) : result unit * state :=
  match mkdir w (arg_output a) with
  | Some e => (Raise e, new_tool (arg_output a))
  | None =>
      match arg_single a with
      | Some (c :: r) =>
          (connected <- check_adb_connection ;;
           if negb connected then raise (SystemExit 1)
           else
             capture_screenshot
               (Some (single_screen_name (arg_name a) (c :: r))) ;;
             ret tt)
            (new_tool (arg_output a))
      | _ => run_interactive inp (new_tool (arg_output a))
      end
  end.

End Tool.

(** ** The logical size in exact arithmetic *)

(** The logical size as the formula reads over the rationals: the least
    integer not below [px / (density / 160)], for a positive density. *)
Definition exact_dp (px density : Z) : Z :=
  (- ((- (px * 160)) / density))%Z.

(** ** Observations on a run *)

(** The command lines of the queries. *)
Definition wm_size_cmd : argv := [lit "adb"; lit "shell"; lit "wm"; lit "size"].
Definition wm_density_cmd : argv :=
  [lit "adb"; lit "shell"; lit "wm"; lit "density"].
Definition devices_cmd : argv := [lit "adb"; lit "devices"].
Definition model_cmd : argv :=
  [lit "adb"; lit "shell"; lit "getprop"; lit "ro.product.model"].
Definition version_cmd : argv :=
  [lit "adb"; lit "shell"; lit "getprop"; lit "ro.build.version.release"].

Definition exit_ok (o : proc_outcome) : bool :=
  match o with
  | Exited rc _ => (rc =? 0)%Z
  | NotFound => false
  end.

Definition exit_nonzero (o : proc_outcome) : bool :=
  match o with
  | Exited rc _ => negb (rc =? 0)%Z
  | NotFound => false
  end.

(** The local path an entry of the process log wrote: that of a pull that
    succeeded. *)
Definition pulled_file (e : argv * proc_outcome) : option pystr :=
  match e with
  | ([a; b; _; dst], o) =>
      if PyStr.eqb a (lit "adb") && PyStr.eqb b (lit "pull") && exit_ok o
      then Some dst else None
  | _ => None
  end.

Fixpoint saved_files (log : list (argv * proc_outcome)) : list pystr :=
  match log with
  | [] => []
  | e :: log' =>
      match pulled_file e with
      | Some f => f :: saved_files log'
      | None => saved_files log'
      end
  end.

(** The number of times the device line of [display_device_info] was
    printed. *)
Definition info_prints (out : list pystr) : nat :=
  List.length (filter (startswith (phone ++ lit " Device: ")) out).

(** The log after the commands [cmds] were started one after the other. *)
Fixpoint run_all (w : world) (log : list (argv * proc_outcome))
         (cmds : list argv) : list (argv * proc_outcome) :=
  match cmds with
  | [] => log
  | c :: r => run_all w (log ++ [(c, spawn w log c)]) r
  end.

(** What becomes of the [k]-th of them. *)
Definition outcome (w : world) (log : list (argv * proc_outcome))
           (cmds : list argv) (k : nat) : proc_outcome :=
  spawn w (run_all w log (firstn k cmds)) (nth k cmds []).

(** The local path and the three command lines of a capture started in
    state [s]. *)
Definition capture_filepath (rt : runtime) (w : world)
           (name : option pystr) (s : state) : pystr :=
  path_join rt (output_dir s)
    (filename rt name (S (screenshot_count s)) (strftime (now w (clock s)))).

Definition capture_cmds (rt : runtime) (w : world)
           (name : option pystr) (s : state) : list argv :=
  [screencap_cmd; pull_cmd (capture_filepath rt w name s); rm_cmd].

(** The state a capture started in [s] leaves, given the log and the output
    it ends with. *)
Definition captured (s : state) (log : list (argv * proc_outcome))
           (out : list pystr) : state :=
  {| output_dir := output_dir s;
     screenshot_count := S (screenshot_count s);
     procs := log; stdout := out; clock := S (clock s) |}.

Definition capturing_line : pystr :=
  camera ++ lit " Capturing screenshot..." ++ lit " ".

Definition failed_line (rt : runtime) (cmd : argv) (rc : Z) : pystr :=
  cross_mark ++ lit " Failed: " ++ str_CalledProcessError rt cmd rc ++ nl.

Definition saved_line (filepath : pystr) : pystr :=
  check_mark ++ lit " Saved: " ++ filepath ++ nl.

(** What [check_adb_connection] prints in each of its cases. *)
Definition adb_missing_guidance : list pystr :=
  [cross_mark ++ lit " ADB not found!" ++ nl;
   nl ++ lit "Install Android Platform Tools:" ++ nl;
   lit "  brew install android-platform-tools" ++ nl].

Definition no_device_guidance : list pystr :=
  [cross_mark ++ lit " No Android device connected!" ++ nl;
   nl ++ lit "Make sure:" ++ nl;
   lit "  1. Your phone is connected via USB" ++ nl;
   lit "  2. USB debugging is enabled" ++ nl;
   lit "  3. You've authorized the computer on your phone" ++ nl].

Definition adb_error_line (rt : runtime) (cmd : argv) (rc : Z) : pystr :=
  cross_mark ++ lit " Error running ADB: " ++ str_CalledProcessError rt cmd rc
  ++ nl.

Definition connected_line (serial : pystr) : pystr :=
  check_mark ++ lit " Connected to device: " ++ serial ++ nl.

(** The state after a process was logged and lines were printed. *)
Definition logged (s : state) (log : list (argv * proc_outcome))
           (out : list pystr) : state :=
  {| output_dir := output_dir s; screenshot_count := screenshot_count s;
     procs := log; stdout := out; clock := clock s |}.

(** A line counts as a connected device when it is not blank and holds the
    text device. *)
Definition device_line (line : pystr) : bool :=
  negb (PyStr.eqb (strip line) []) && contains (lit "device") line.

(** The state with the prompt of [input] shown. *)
Definition prompted (s : state) : state :=
  logged s (procs s) (stdout s ++ [prompt]).

(** The state after the two lines of the summary, the first one led by
    [lead]. *)
Definition with_summary (rt : runtime) (lead : pystr) (s : state) : state :=
  logged s (procs s)
    (stdout s ++ [lead ++ done_line (screenshot_count s) ++ nl;
                  location_line rt (output_dir s) ++ nl]).

(** ** Frames

    [respects R c]: every run of [c] takes a state to an [R]-related one,
    whatever it returns or raises. *)
Definition respects (R : state -> state -> Prop) {A} (c : M A) : Prop :=
  forall s, R s (snd (c s)).

Definition same_count (s s' : state) : Prop :=
  screenshot_count s' = screenshot_count s.

(** Nothing of what the session reports has changed: directory, counter,
    files pulled, device lines printed. *)
Definition quiet (s s' : state) : Prop :=
  output_dir s' = output_dir s
  /\ screenshot_count s' = screenshot_count s
  /\ saved_files (procs s') = saved_files (procs s)
  /\ info_prints (stdout s') = info_prints (stdout s).

(** The three command lines of a capture. *)
Definition capture_step (cmd : argv) : Prop :=
  cmd = screencap_cmd \/ cmd = rm_cmd \/ exists p, cmd = pull_cmd p.

(** ** Sample surroundings, for concrete runs *)

Definition argv_eqb (a b : argv) : bool :=
  if list_eq_dec (list_eq_dec N.eq_dec) a b then true else false.

(** A device that answers each command line by a script; commands not in the
    script succeed silently. *)
Fixpoint answer (script : list (argv * proc_outcome)) (cmd : argv)
  : proc_outcome :=
  match script with
  | [] => Exited 0 []
  | (c, o) :: r => if argv_eqb c cmd then o else answer r cmd
  end.

Definition scripted_world (script : list (argv * proc_outcome))
           (t : datetime) : world :=
  {| spawn := fun _ cmd => answer script cmd;
     now := fun _ => t;
     mkdir := fun _ => None |}.

Definition new_year_noon : datetime :=
  {| year := 2024; month := 1; day := 1;
     hour := 12; minute := 0; second := 0 |}.

Definition sample_runtime : runtime :=
  {| uni_isalnum := fun _ => false;
     uni_lower := fun s => s;
     uni_decimal := fun _ => None;
     str_CalledProcessError :=
       fun _ rc => lit "non-zero exit status " ++ str_of_Z rc;
     path_join := fun d f => d ++ lit "/" ++ f;
     path_absolute := fun d => lit "/home/dev/" ++ d |}.

Definition devices_out : pystr :=
  lit "List of devices attached" ++ nl ++ lit "emulator-5554" ++ [9]
  ++ lit "device" ++ nl ++ nl.

(** A phone of 1080x2400 pixels at 420 dpi. *)
Definition phone_1080 : world :=
  scripted_world
    [(devices_cmd, Exited 0 devices_out);
     (model_cmd, Exited 0 (lit "Pixel 5" ++ nl));
     (version_cmd, Exited 0 (lit "14" ++ nl));
     (wm_size_cmd, Exited 0 (lit "Physical size: 1080x2400" ++ nl));
     (wm_density_cmd, Exited 0 (lit "Physical density: 420" ++ nl))]
    new_year_noon.

(** A phone of 1344x2992 pixels at 448 dpi. *)
Definition phone_1344 : world :=
  scripted_world
    [(devices_cmd, Exited 0 devices_out);
     (wm_size_cmd, Exited 0 (lit "Physical size: 1344x2992" ++ nl));
     (wm_density_cmd, Exited 0 (lit "Physical density: 448" ++ nl))]
    new_year_noon.

(** A device on which the pull of the first automatically named screenshot
    into the directory shots fails. *)
Definition flaky_pull : world :=
  scripted_world
    [(devices_cmd, Exited 0 devices_out);
     (pull_cmd (lit "shots/screenshot_001_20240101_120000.png"),
      Exited 1 [])]
    new_year_noon.

Definition single_login : args :=
  {| arg_output := lit "shots"; arg_single := Some (lit "login");
     arg_name := None |}.

Definition single_login_png : args :=
  {| arg_output := lit "shots"; arg_single := Some (lit "login.png");
     arg_name := None |}.

Definition idle (dir : pystr) (count : nat) : state :=
  {| output_dir := dir; screenshot_count := count; procs := [];
     stdout := []; clock := 0 |}.

(** ** Decimal numerals *)

(** The number a decimal numeral reads as, after the digits read so far
    gave [acc]. *)
Fixpoint uint_value (d : Decimal.uint) (acc : N) : N :=
  match d with
  | Decimal.Nil => acc
  | Decimal.D0 d => uint_value d (10 * acc)
  | Decimal.D1 d => uint_value d (10 * acc + 1)
  | Decimal.D2 d => uint_value d (10 * acc + 2)
  | Decimal.D3 d => uint_value d (10 * acc + 3)
  | Decimal.D4 d => uint_value d (10 * acc + 4)
  | Decimal.D5 d => uint_value d (10 * acc + 5)
  | Decimal.D6 d => uint_value d (10 * acc + 6)
  | Decimal.D7 d => uint_value d (10 * acc + 7)
  | Decimal.D8 d => uint_value d (10 * acc + 8)
  | Decimal.D9 d => uint_value d (10 * acc + 9)
  end.

Definition is_digit (c : char) : bool := (48 <=? c) && (c <=? 57).

(** The characters of [str(z)]: digits and the minus sign. *)
Definition numeral_char (c : char) : bool := is_digit c || (c =? 45).

(** ** What [get_display_info] makes of its two queries *)

(** The size query succeeded and its output holds the size label. *)
Definition size_reported (o : proc_outcome) : bool :=
  match o with
  | Exited 0 out => contains size_label (strip out)
  | _ => false
  end.

(** The density read from the output of the density query. *)
Definition read_density (rt : runtime) (o : proc_outcome) : result Z :=
  match o with
  | Exited 0 out =>
      if contains density_label (strip out) then
        match second_item (split density_label (strip out)) with
        | Ret d => py_int rt (strip d)
        | Raise e => Raise e
        end
      else Raise ValueError
  | _ => Raise OSError
  end.

(** The size read from the output of the size query. *)
Definition read_size (rt : runtime) (o : proc_outcome) : result (Z * Z) :=
  match o with
  | Exited 0 out =>
      if contains size_label (strip out) then
        match second_item (split size_label (strip out)) with
        | Ret resolution => parse_resolution rt (strip resolution)
        | Raise e => Raise e
        end
      else Raise ValueError
  | _ => Raise OSError
  end.

(** The dictionary built from a size and a density. *)
Definition make_info (wh : Z * Z) (dens : Z) : option display_info :=
  match PyFloat.to_dp (fst wh) dens, PyFloat.to_dp (snd wh) dens with
  | Ret a, Ret b =>
      Some {| physical := wh; logical := (a, b); density := dens |}
  | _, _ => None
  end.

(** ** Further observations *)

(** Only the process log has changed. *)
Definition silent (s s' : state) : Prop :=
  output_dir s' = output_dir s
  /\ screenshot_count s' = screenshot_count s
  /\ stdout s' = stdout s
  /\ clock s' = clock s.

(** The lines of [display_device_info]. *)
Definition device_text (model version : pystr) : pystr :=
  phone ++ lit " Device: " ++ model ++ lit " (Android " ++ version ++ lit ")"
  ++ nl.

Definition unable_text : pystr :=
  ruler ++ lit " Resolution: Unable to detect" ++ nl.

Definition resolution_text (i : display_info) : pystr :=
  ruler ++ lit " Resolution: " ++ str_of_Z (fst (physical i)) ++ lit "x"
  ++ str_of_Z (snd (physical i)) ++ lit "px (physical) | "
  ++ str_of_Z (fst (logical i)) ++ lit "x" ++ str_of_Z (snd (logical i))
  ++ lit "dp (logical)" ++ nl.

Definition density_text (i : display_info) : pystr :=
  lit "   Density: " ++ str_of_Z (density i) ++ lit " DPI" ++ nl.

(** The densities of the standard Android buckets. *)
Definition standard_densities : list Z :=
  [120; 160; 213; 240; 280; 320; 360; 400; 420; 440; 480; 560; 640]%Z.

(** [adb devices] succeeded and listed a device. *)
Definition device_listed (o : proc_outcome) : bool :=
  match o with
  | Exited 0 out =>
      match connected_devices out with
      | [] => false
      | _ :: _ => true
      end
  | _ => false
  end.

(** The characters [clean_name] lets through. *)
Definition allowed (rt : runtime) (c : char) : bool :=
  isalnum rt c || (c =? 45) || (c =? 95).

(** An input that ends the session: the line q (in either case, white space
    around it) or Ctrl-C. *)
Definition quits (rt : runtime) (e : input_event) : bool :=
  match e with
  | Interrupt => true
  | Line text => PyStr.eqb (lower rt (strip text)) (lit "q")
  end.

(** The captures asked for before the session ends: the lines other than i,
    up to the first input that quits. *)
Fixpoint requested (rt : runtime) (inp : list input_event) : nat :=
  match inp with
  | [] => 0
  | e :: rest =>
      if quits rt e then 0
      else match e with
           | Line text =>
               if PyStr.eqb (lower rt (strip text)) (lit "i")
               then requested rt rest
               else S (requested rt rest)
           | Interrupt => 0
           end
  end.

(** What the loop does on a line that is not q, before it prompts again. *)
Definition turn (rt : runtime) (w : world) (text : pystr) : M unit :=
  if PyStr.eqb (lower rt (strip text)) (lit "i") then
    display_device_info rt w
  else if PyStr.eqb (strip text) [] then
    (capture_screenshot rt w None ;; ret tt)
  else
    (capture_screenshot rt w (Some (strip text)) ;; ret tt).

(** The binary is there whenever a process is started. *)
Definition adb_installed (w : world) : Prop :=
  forall log cmd, spawn w log cmd <> NotFound.

(** ** More sample surroundings *)


(** A computer without the [adb] binary. *)
Definition no_adb : world :=
  {| spawn := fun _ _ => NotFound;
     now := fun _ => new_year_noon;
     mkdir := fun _ => None |}.

(** A device on which the screen capture fails. *)
Definition broken_screencap : world :=
  scripted_world
    [(devices_cmd, Exited 0 devices_out); (screencap_cmd, Exited 1 [])]
    new_year_noon.

(** A computer with [adb] and no device attached. *)
Definition no_device : world :=
  scripted_world
    [(devices_cmd, Exited 0 (lit "List of devices attached" ++ nl ++ nl))]
    new_year_noon.

(** The three lines [run_interactive] prints first. *)
Definition banner : M unit :=
  print (nl ++ rule) ;;
  print (lit "  Android Screenshot Capture Tool") ;;
  print rule.

(** A device that reports a density of 0. *)
Definition zero_density : world :=
  scripted_world
    [(wm_size_cmd, Exited 0 (lit "Physical size: 1080x2400" ++ nl));
     (wm_density_cmd, Exited 0 (lit "Physical density: 0" ++ nl))]
    new_year_noon.

(** * Properties *)

Local Close Scope N_scope.

(** ** Text helpers *)

Lemma eqb_eq (a b : pystr) : PyStr.eqb a b = true <-> a = b.
Proof.
  unfold PyStr.eqb. destruct (list_eq_dec N.eq_dec a b); split; congruence.
Qed.

Lemma eqb_refl (a : pystr) : PyStr.eqb a a = true.
Proof. apply eqb_eq. reflexivity. Qed.

Lemma replace_absent (old new s : pystr) :
  contains old s = false -> replace old new s = s.
Proof.
  unfold replace. induction s as [|c s IH]; intro H.
  - reflexivity.
  - cbn [contains] in H. apply orb_false_iff in H. destruct H as [H1 H2].
    cbn [replace_from]. rewrite H1. f_equal. apply IH, H2.
Qed.

Lemma lstrip_nil (s : pystr) : lstrip s = [] <-> forallb isspace s = true.
Proof.
  induction s as [|c s IH]; cbn [lstrip forallb]; [tauto|].
  destruct (isspace c); cbn [andb]; [exact IH|].
  split; discriminate.
Qed.

Lemma lstrip_suffix (s : pystr) : exists pre, s = pre ++ lstrip s.
Proof.
  induction s as [|c s [pre IH]]; [exists []; reflexivity|].
  cbn [lstrip]. destruct (isspace c).
  - exists (c :: pre). cbn. f_equal. exact IH.
  - exists []. reflexivity.
Qed.

Lemma lstrip_head (s : pystr) (c : char) (r : pystr) :
  lstrip s = c :: r -> isspace c = false.
Proof.
  induction s as [|d s IH]; cbn [lstrip]; [discriminate|].
  destruct (isspace d) eqn:E; [exact IH|].
  intro H. injection H as -> _. exact E.
Qed.

Lemma lstrip_fixed (c : char) (r : pystr) :
  isspace c = false -> lstrip (c :: r) = c :: r.
Proof. intro H. cbn [lstrip]. rewrite H. reflexivity. Qed.

Lemma strip_nil (s : pystr) : strip s = [] <-> forallb isspace s = true.
Proof.
  unfold strip, rstrip. split.
  - intro H. apply (f_equal (@rev char)) in H. rewrite rev_involutive in H.
    cbn in H. apply lstrip_nil in H. rewrite forallb_forall in H.
    apply lstrip_nil. destruct (lstrip s) as [|c r] eqn:E; [reflexivity|].
    apply lstrip_head in E. rewrite H in E; [discriminate|].
    apply in_rev. rewrite rev_involutive. left. reflexivity.
  - intro H. apply lstrip_nil in H. rewrite H. reflexivity.
Qed.

Lemma strip_strip (s : pystr) : strip (strip s) = strip s.
Proof.
  unfold strip, rstrip.
  destruct (lstrip (rev (lstrip s))) as [|c u] eqn:E; [reflexivity|].
  pose proof (lstrip_head _ _ _ E) as Hc.
  assert (Hfix : lstrip (rev (c :: u)) = rev (c :: u)).
  { destruct (lstrip_suffix (rev (lstrip s))) as [pre Hpre].
    rewrite E in Hpre. apply (f_equal (@rev char)) in Hpre.
    rewrite rev_involutive, rev_app_distr in Hpre.
    destruct (rev (c :: u)) as [|d v] eqn:Er.
    - reflexivity.
    - apply lstrip_fixed. cbn [app] in Hpre.
      apply (lstrip_head s d (v ++ rev pre)). exact Hpre. }
  rewrite Hfix, rev_involutive, (lstrip_fixed _ _ Hc). reflexivity.
Qed.

Lemma split_ws_from_nil (cur s : pystr) :
  split_ws_from cur s = [] -> cur = [] /\ forallb isspace s = true.
Proof.
  revert cur. induction s as [|c s IH]; intros cur; cbn [split_ws_from forallb].
  - destruct cur; [auto | discriminate].
  - destruct (isspace c); cbn [andb].
    + destruct cur; [apply IH | discriminate].
    + intro H. apply IH in H. destruct H as [H _]. discriminate H.
Qed.

Lemma split_ws_nonblank (s : pystr) : strip s <> [] -> split_ws s <> [].
Proof.
  intros H E. apply split_ws_from_nil in E. apply H, strip_nil, E.
Qed.

Example strftime_new_year_noon : strftime new_year_noon = lit "20240101_120000".
Proof. reflexivity. Qed.

Example split_resolution :
  split (lit "x") (lit "1080x2400") = [lit "1080"; lit "2400"].
Proof. reflexivity. Qed.

Example replace_png : replace (lit ".png") [] (lit "a.png.pngb.pn") = lit "ab.pn".
Proof. reflexivity. Qed.

Example split_ws_device_line :
  split_ws (lit "  emulator-5554" ++ [9%N] ++ lit "device ")
  = [lit "emulator-5554"; lit "device"].
Proof. reflexivity. Qed.

(** ** The screen name *)

(** C2: the cleaned name has the length of the supplied name; at every
    position it holds the character of the supplied name when that one is
    alphanumeric, a hyphen or an underscore, and an underscore otherwise; a
    supplied (non-empty) name enters the file name in its cleaned form; and
    "Login Page!" is cleaned to "Login_Page_". *)
Theorem clean_name_positionwise (rt : runtime) (name : pystr) :
  List.length (clean_name rt name) = List.length name
  /\ (forall i,
        nth_error (clean_name rt name) i
        = option_map
            (fun c => if isalnum rt c || (c =? 45) || (c =? 95) then c else 95)%N
            (nth_error name i))
  /\ (forall c r count ts,
        filename rt (Some (c :: r)) count ts
        = clean_name rt (c :: r) ++ lit "_" ++ ts ++ lit ".png")
  /\ clean_name rt (lit "Login Page!") = lit "Login_Page_".
Proof.
  unfold clean_name. repeat split.
  - apply length_map.
  - intro i. apply nth_error_map.
Qed.

(** ** The logical size *)

(** C4: on a display of 1080 pixels at 420 dpi the logical width is 412, as
    the formula says; on a display of 1344 pixels at 448 dpi the quotient
    1344 / (448 / 160) is 480 exactly, yet [get_display_info] reports 481:
    448 / 160 is rounded down to binary64, the quotient comes out just above
    480, and [math.ceil] takes it to the next integer. *)
Theorem get_display_info_above_exact_quotient (rt : runtime) (dir : pystr) :
  fst (get_display_info rt phone_1080 (idle dir 0))
  = Ret (Some {| physical := (1080, 2400)%Z; logical := (412, 915)%Z;
                 density := 420%Z |})
  /\ exact_dp 1080 420 = 412%Z
  /\ fst (get_display_info rt phone_1344 (idle dir 0))
     = Ret (Some {| physical := (1344, 2992)%Z; logical := (481, 1069)%Z;
                    density := 448%Z |})
  /\ exact_dp 1344 448 = 480%Z
  /\ exact_dp 2992 448 = 1069%Z.
Proof.
  repeat split; vm_compute; reflexivity.
Qed.

(** ** The screen name of single-shot mode *)

(** C8 as stated fails: with [--single login.png] and no [--name], the
    screen name is login, not login.png, and the file saved is
    login_<timestamp>.png. *)
Lemma single_png_is_dropped :
  single_screen_name None (lit "login.png") = lit "login"
  /\ single_screen_name None (lit "login.png") <> lit "login.png"
  /\ saved_files
       (procs (snd (main sample_runtime phone_1080 single_login_png [])))
     = [lit "shots/login_20240101_120000.png"].
Proof.
  split; [reflexivity|]. split; [vm_compute; discriminate|].
  vm_compute. reflexivity.
Qed.

(** C8, amended: in single-shot mode (a non-empty [--single] value, the
    directory made, a device connected) the capture is made with the
    [--name] value when that is a non-empty string, and otherwise with the
    [--single] value from which every occurrence of ".png" is removed; that
    is the [--single] value itself when it holds no ".png" and no non-empty
    [--name] is given. *)
Theorem single_shot_screen_name
        (rt : runtime) (w : world) (a : args) (single : pystr)
        (inp : list input_event) (s1 : state)
        (Hdir : mkdir w (arg_output a) = None)
        (Hsingle : arg_single a = Some single)
        (Hne : single <> [])
        (Hconn : check_adb_connection rt w (new_tool (arg_output a))
                 = (Ret true, s1)) :
  let name :=
    match arg_name a with
    | Some (c :: r) => c :: r
    | _ => replace (lit ".png") [] single
    end in
  main rt w a inp = (capture_screenshot rt w (Some name) ;; ret tt)%py s1
  /\ (truthy (arg_name a) = false ->
      contains (lit ".png") single = false -> name = single).
Proof.
  intro name. split.
  - unfold main. rewrite Hdir, Hsingle.
    destruct single as [|c r]; [congruence|].
    unfold bind at 1. rewrite Hconn. reflexivity.
  - intros Hn Hc. subst name.
    destruct (arg_name a) as [[|c r]|]; cbn in Hn; try discriminate;
      apply replace_absent, Hc.
Qed.

Lemma single_shot_screen_name_witness :
  main sample_runtime phone_1080 single_login []
  = (capture_screenshot sample_runtime phone_1080 (Some (lit "login")) ;;
     ret tt)%py
      (snd (check_adb_connection sample_runtime phone_1080
                                 (new_tool (lit "shots")))).
Proof.
  refine (proj1 (single_shot_screen_name sample_runtime phone_1080
                   single_login (lit "login") [] _ _ _ _ _)).
  - reflexivity.
  - reflexivity.
  - discriminate.
  - vm_compute. reflexivity.
Defined.

(** ** Frames: what a method leaves alone *)

Section Frame.

Context (R : state -> state -> Prop) {R_pre : PreOrder R}.

Lemma respects_ret {A} (a : A) : respects R (ret a).
Proof. intro s. reflexivity. Qed.

Lemma respects_raise {A} (e : exn) : respects R (@raise A e).
Proof. intro s. reflexivity. Qed.

Lemma respects_lift {A} (r : result A) : respects R (lift r).
Proof. intro s. reflexivity. Qed.

Lemma respects_bind {A B} (c : M A) (k : A -> M B) :
  respects R c -> (forall a, respects R (k a)) -> respects R (bind c k).
Proof.
  intros Hc Hk s. unfold bind. specialize (Hc s).
  destruct (c s) as [[a|e] s']; cbn in *.
  - transitivity s'; [exact Hc | apply Hk].
  - exact Hc.
Qed.

Lemma respects_try {A} (c : M A) (h : exn -> option (M A)) :
  respects R c -> (forall e k, h e = Some k -> respects R k) ->
  respects R (try_except c h).
Proof.
  intros Hc Hh s. unfold try_except. specialize (Hc s).
  destruct (c s) as [[a|e] s']; cbn in *.
  - exact Hc.
  - destruct (h e) as [k|] eqn:E; cbn.
    + transitivity s'; [exact Hc | eapply Hh, E].
    + exact Hc.
Qed.

Lemma respects_state {A} (c : state -> M A) :
  (forall s0, respects R (c s0)) -> respects R (fun s => c s s).
Proof. intros H s. apply H. Qed.

End Frame.

(** Closes a [respects] goal over code made of the monad's operations, given
    a tactic [prims] for [print_end], [run] and the like. *)
Ltac frame prims :=
  repeat first
    [ prims
    | apply respects_ret
    | apply respects_raise
    | apply respects_lift
    | apply respects_bind
    | apply respects_try
    | match goal with
      | |- PreOrder _ => exact _
      | |- respects _ (let _ := _ in _) => cbv zeta
      | |- respects _ (match ?x with _ => _ end) => destruct x
      | |- respects _ (if ?x then _ else _) => destruct x
      | |- forall _, _ => intro
      | H : Some _ = Some _ |- _ => injection H as <-
      | H : None = Some _ |- _ => discriminate H
      | H : match ?e with _ => _ end = Some _ |- _ => destruct e
      end ].

(** *** The counter *)

#[local] Instance same_count_pre : PreOrder same_count.
Proof.
  split; unfold same_count; [intro s; reflexivity|].
  intros s1 s2 s3 H1 H2. congruence.
Qed.

Section CounterFrame.

Variable rt : runtime.
Variable w : world.

Lemma count_print_end (t e : pystr) : respects same_count (print_end t e).
Proof. intro s. reflexivity. Qed.

Lemma count_run (cmd : argv) : respects same_count (run w cmd).
Proof.
  intro s. unfold run.
  destruct (spawn w (procs s) cmd) as [|rc out]; [reflexivity|].
  destruct (rc =? 0)%Z; reflexivity.
Qed.

Ltac count_prims :=
  first [ apply count_print_end | apply count_run ].

Lemma count_check_adb_connection :
  respects same_count (check_adb_connection rt w).
Proof. unfold check_adb_connection, print. frame count_prims. Qed.

Lemma count_get_device_info : respects same_count (get_device_info w).
Proof. unfold get_device_info. frame count_prims. Qed.

Lemma count_get_display_info : respects same_count (get_display_info rt w).
Proof. unfold get_display_info. frame count_prims. Qed.

Lemma count_display_device_info :
  respects same_count (display_device_info rt w).
Proof.
  unfold display_device_info, print.
  frame ltac:(first [ apply count_get_device_info
                    | apply count_get_display_info | count_prims ]).
Qed.

End CounterFrame.

(** ** One capture, step by step *)

(** Two descriptions of a state agree once the projections are computed and
    the appends are associated to the right. *)
Ltac state_eq :=
  cbn [procs stdout output_dir screenshot_count clock fst snd];
  rewrite <- ?app_assoc; reflexivity.

Section Capture.

Variable rt : runtime.
Variable w : world.

(** The run of [capture_screenshot] from [s], by what becomes of its
    processes. *)
Lemma capture_screenshot_run (name : option pystr) (s : state) :
  capture_screenshot rt w name s =
  let fp := capture_filepath rt w name s in
  let out0 := stdout s ++ [capturing_line] in
  let o1 := spawn w (procs s) screencap_cmd in
  let log1 := procs s ++ [(screencap_cmd, o1)] in
  let o2 := spawn w log1 (pull_cmd fp) in
  let log2 := log1 ++ [(pull_cmd fp, o2)] in
  let o3 := spawn w log2 rm_cmd in
  let log3 := log2 ++ [(rm_cmd, o3)] in
  match o1 with
  | NotFound => (Raise FileNotFoundError, captured s log1 out0)
  | Exited rc1 _ =>
    if (rc1 =? 0)%Z then
      match o2 with
      | NotFound => (Raise FileNotFoundError, captured s log2 out0)
      | Exited rc2 _ =>
        if (rc2 =? 0)%Z then
          match o3 with
          | NotFound => (Raise FileNotFoundError, captured s log3 out0)
          | Exited rc3 _ =>
            if (rc3 =? 0)%Z
            then (Ret true, captured s log3 (out0 ++ [saved_line fp]))
            else (Ret false,
                  captured s log3 (out0 ++ [failed_line rt rm_cmd rc3]))
          end
        else (Ret false,
              captured s log2 (out0 ++ [failed_line rt (pull_cmd fp) rc2]))
      end
    else (Ret false,
          captured s log1 (out0 ++ [failed_line rt screencap_cmd rc1]))
  end.
Proof.
  unfold capture_screenshot, capture_filepath, captured, capturing_line,
    failed_line, saved_line.
  unfold bind, try_except, timestamp_now, bump_count, print, print_end, run,
    ret.
  cbv zeta. cbn [procs stdout output_dir screenshot_count clock].
  destruct (spawn w (procs s) screencap_cmd) as [|rc1 out1]; [reflexivity|].
  destruct (rc1 =? 0)%Z; [|state_eq].
  cbn [procs stdout output_dir screenshot_count clock].
  match goal with |- context [spawn w ?l (pull_cmd ?f)] =>
    destruct (spawn w l (pull_cmd f)) as [|rc2 out2] end; [reflexivity|].
  destruct (rc2 =? 0)%Z; [|state_eq].
  cbn [procs stdout output_dir screenshot_count clock].
  match goal with |- context [spawn w ?l rm_cmd] =>
    destruct (spawn w l rm_cmd) as [|rc3 out3] end; [reflexivity|].
  destruct (rc3 =? 0)%Z; state_eq.
Qed.

End Capture.

Section CaptureFacts.

Variable rt : runtime.
Variable w : world.

Lemma saved_files_app (l1 l2 : list (argv * proc_outcome)) :
  saved_files (l1 ++ l2) = saved_files l1 ++ saved_files l2.
Proof.
  induction l1 as [|e l1 IH]; [reflexivity|].
  cbn [app saved_files]. destruct (pulled_file e); rewrite IH; reflexivity.
Qed.

Lemma exit_ok_inv (o : proc_outcome) :
  exit_ok o = true -> exists out, o = Exited 0 out.
Proof.
  destruct o as [|rc out]; cbn; [discriminate|].
  intro H. apply Z.eqb_eq in H. subst rc. eauto.
Qed.

(** C1: [capture_screenshot] starts the screen capture to the device-side
    path, the pull of that file to the local path and the removal of the
    device-side file, in this order.  When the [k]-th of them is the first
    to exit with a non-zero code, the method prints the failure of that
    command, returns [False], and has started the commands up to the [k]-th
    and none after it.  When all three exit with zero it returns [True]
    after starting exactly the three, and printing the saved path; it
    returns [True] only then.  When the screen capture exits non-zero no
    pull has been made, so no local file was written. *)
Theorem capture_screenshot_steps (name : option pystr) (s : state) :
  let cmds := capture_cmds rt w name s in
  let r := capture_screenshot rt w name s in
  (forall k rc out,
      (k < 3)%nat ->
      (forall j, (j < k)%nat -> exit_ok (outcome w (procs s) cmds j) = true) ->
      outcome w (procs s) cmds k = Exited rc out -> rc <> 0%Z ->
      r = (Ret false,
           captured s (run_all w (procs s) (firstn (S k) cmds))
             (stdout s ++ [capturing_line;
                           failed_line rt (nth k cmds []) rc])))
  /\ ((forall j, (j < 3)%nat ->
                exit_ok (outcome w (procs s) cmds j) = true) ->
      r = (Ret true,
           captured s (run_all w (procs s) cmds)
             (stdout s ++ [capturing_line;
                           saved_line (capture_filepath rt w name s)])))
  /\ (fst r = Ret true ->
      forall j, (j < 3)%nat -> exit_ok (outcome w (procs s) cmds j) = true)
  /\ (exit_nonzero (outcome w (procs s) cmds 0) = true ->
      saved_files (procs (snd r)) = saved_files (procs s)).
Proof.
  intros cmds r. subst cmds r. rewrite capture_screenshot_run.
  unfold outcome, capture_cmds. cbv zeta.
  repeat split.
  - intros k rc out Hk Hprev Hfail Hrc.
    apply Z.eqb_neq in Hrc.
    destruct k as [|[|[|k]]]; [| | |lia].
    + cbn [firstn nth run_all] in Hfail |- *.
      rewrite Hfail, Hrc. state_eq.
    + pose proof (Hprev 0%nat ltac:(lia)) as H0.
      cbn [firstn nth run_all] in H0, Hfail |- *.
      destruct (exit_ok_inv _ H0) as [out1 E1].
      rewrite E1 in Hfail |- *. rewrite Hfail, Hrc. cbn [Z.eqb]. state_eq.
    + pose proof (Hprev 0%nat ltac:(lia)) as H0.
      pose proof (Hprev 1%nat ltac:(lia)) as H1.
      cbn [firstn nth run_all] in H0, H1, Hfail |- *.
      destruct (exit_ok_inv _ H0) as [out1 E1].
      rewrite E1 in H1, Hfail |- *.
      destruct (exit_ok_inv _ H1) as [out2 E2].
      rewrite E2 in Hfail |- *. rewrite Hfail, Hrc. cbn [Z.eqb]. state_eq.
  - intro Hall.
    pose proof (Hall 0%nat ltac:(lia)) as H0.
    pose proof (Hall 1%nat ltac:(lia)) as H1.
    pose proof (Hall 2%nat ltac:(lia)) as H2.
    cbn [firstn nth run_all] in H0, H1, H2 |- *.
    destruct (exit_ok_inv _ H0) as [out1 E1].
    rewrite E1 in H1, H2 |- *.
    destruct (exit_ok_inv _ H1) as [out2 E2].
    rewrite E2 in H2 |- *.
    destruct (exit_ok_inv _ H2) as [out3 E3].
    rewrite E3. cbn [Z.eqb]. state_eq.
  - intros Htrue j Hj.
    destruct (spawn w (procs s) screencap_cmd) as [|rc1 out1] eqn:E1;
      [discriminate Htrue|].
    destruct (rc1 =? 0)%Z eqn:Z1; [|discriminate Htrue].
    match type of Htrue with context [spawn w ?l (pull_cmd ?f)] =>
      destruct (spawn w l (pull_cmd f)) as [|rc2 out2] eqn:E2 end;
      [discriminate Htrue|].
    destruct (rc2 =? 0)%Z eqn:Z2; [|discriminate Htrue].
    match type of Htrue with context [spawn w ?l rm_cmd] =>
      destruct (spawn w l rm_cmd) as [|rc3 out3] eqn:E3 end;
      [discriminate Htrue|].
    destruct (rc3 =? 0)%Z eqn:Z3; [|discriminate Htrue].
    destruct j as [|[|[|j]]]; [| | |lia]; cbn [firstn nth run_all].
    + rewrite E1. exact Z1.
    + rewrite E1, E2. exact Z2.
    + rewrite E1, E2, E3. exact Z3.
  - intro Hnz. cbn [firstn nth run_all] in Hnz.
    destruct (spawn w (procs s) screencap_cmd) as [|rc1 out1];
      [discriminate Hnz|].
    cbn in Hnz. apply negb_true_iff in Hnz. rewrite Hnz.
    cbn [snd captured procs].
    rewrite saved_files_app. cbn. apply app_nil_r.
Qed.

Lemma zero_pad_3_length (n : nat) :
  (n < 1000)%nat -> List.length (zero_pad 3 n) = 3%nat.
Proof.
  intro H.
  assert (A : forallb (fun n => Nat.eqb (List.length (zero_pad 3 n)) 3)
                      (seq 0 1000) = true) by (vm_compute; reflexivity).
  rewrite forallb_forall in A. apply Nat.eqb_eq, A, in_seq. lia.
Qed.

(** C5: a new tool has counted no screenshot; every call of
    [capture_screenshot] adds exactly one to the counter, with or without a
    screen name and whatever becomes of the capture (returned [True],
    returned [False], or raised); the other methods leave the counter as it
    is. *)
Theorem screenshot_count_discipline :
  (forall dir, screenshot_count (new_tool dir) = 0%nat)
  /\ (forall name s,
        screenshot_count (snd (capture_screenshot rt w name s))
        = S (screenshot_count s))
  /\ (forall s, screenshot_count (snd (check_adb_connection rt w s))
               = screenshot_count s)
  /\ (forall s, screenshot_count (snd (get_device_info w s))
               = screenshot_count s)
  /\ (forall s, screenshot_count (snd (get_display_info rt w s))
               = screenshot_count s)
  /\ (forall s, screenshot_count (snd (display_device_info rt w s))
               = screenshot_count s).
Proof.
  split; [reflexivity|]. split.
  - intros name s. rewrite capture_screenshot_run. cbv zeta.
    repeat match goal with
           | |- context [match ?o with NotFound => _ | Exited _ _ => _ end] =>
               destruct o
           | |- context [if ?b then _ else _] => destruct b
           end; reflexivity.
  - repeat split.
    + apply count_check_adb_connection.
    + apply count_get_device_info.
    + apply count_get_display_info.
    + apply count_display_device_info.
Qed.

(** C7: a capture without a screen name whose screen capture step succeeds
    pulls, as its second process, to the file
    screenshot_<counter>_<timestamp>.png of the output directory, where the
    counter is the one just incremented, written with at least three digits
    (exactly three, zero-padded, below 1000); counter 3 and timestamp
    20240101_120000 give screenshot_003_20240101_120000.png. *)
Theorem auto_named_capture (s : state) (out1 : pystr)
        (Hcap : spawn w (procs s) screencap_cmd = Exited 0 out1) :
  let s' := snd (capture_screenshot rt w None s) in
  let ts := strftime (now w (clock s)) in
  map fst (firstn 2 (skipn (List.length (procs s)) (procs s')))
  = [screencap_cmd;
     pull_cmd (path_join rt (output_dir s)
                 (lit "screenshot_" ++ zero_pad 3 (screenshot_count s')
                  ++ lit "_" ++ ts ++ lit ".png"))]
  /\ screenshot_count s' = S (screenshot_count s)
  /\ (forall n, (n < 1000)%nat -> List.length (zero_pad 3 n) = 3%nat)
  /\ filename rt None 3 (lit "20240101_120000")
     = lit "screenshot_003_20240101_120000.png".
Proof.
  intros s' ts. subst s' ts. rewrite capture_screenshot_run. cbv zeta.
  rewrite Hcap. cbn [Z.eqb].
  assert (K : forall (l : list (argv * proc_outcome)) a b r,
             firstn 2 (skipn (List.length l) (((l ++ [a]) ++ [b]) ++ r))
             = [a; b]).
  { intros l a b r. rewrite <- !app_assoc.
    rewrite skipn_app, skipn_all, Nat.sub_diag. reflexivity. }
  repeat split.
  - repeat match goal with
           | |- context [match ?o with NotFound => _ | Exited _ _ => _ end] =>
               destruct o
           | |- context [if ?b then _ else _] => destruct b
           end;
      cbn [snd captured procs screenshot_count];
      first [ rewrite (K _ _ _ [_]) | rewrite <- (app_nil_r ((_ ++ _) ++ _)), K ];
      reflexivity.
  - repeat match goal with
           | |- context [match ?o with NotFound => _ | Exited _ _ => _ end] =>
               destruct o
           | |- context [if ?b then _ else _] => destruct b
           end; reflexivity.
  - apply zero_pad_3_length.
Qed.

End CaptureFacts.

(** ** The connection check and the device properties *)

Section Queries.

Variable rt : runtime.
Variable w : world.

Lemma check_adb_connection_run (s : state) :
  check_adb_connection rt w s =
  let o := spawn w (procs s) devices_cmd in
  let log := procs s ++ [(devices_cmd, o)] in
  match o with
  | NotFound =>
      (Ret false, logged s log (stdout s ++ adb_missing_guidance))
  | Exited rc out =>
      if (rc =? 0)%Z then
        match connected_devices out with
        | [] => (Ret false, logged s log (stdout s ++ no_device_guidance))
        | d :: _ =>
            match split_ws d with
            | [] => (Raise IndexError, logged s log (stdout s))
            | serial :: _ =>
                (Ret true,
                 logged s log (stdout s ++ [connected_line serial]))
            end
        end
      else (Ret false,
            logged s log (stdout s ++ [adb_error_line rt devices_cmd rc]))
  end.
Proof.
  unfold check_adb_connection, logged, adb_missing_guidance,
    no_device_guidance, adb_error_line, connected_line, devices_cmd.
  unfold bind, try_except, print, print_end, run, ret, raise.
  cbv zeta. cbn [procs stdout output_dir screenshot_count clock].
  destruct (spawn w (procs s) [lit "adb"; lit "devices"]) as [|rc out];
    [state_eq|].
  destruct (rc =? 0)%Z; [|state_eq].
  destruct (connected_devices out) as [|d ds]; [state_eq|].
  destruct (split_ws d) as [|serial rest]; state_eq.
Qed.

Lemma get_device_info_run (s : state) :
  get_device_info w s =
  let o1 := spawn w (procs s) model_cmd in
  let log1 := procs s ++ [(model_cmd, o1)] in
  let o2 := spawn w log1 version_cmd in
  let log2 := log1 ++ [(version_cmd, o2)] in
  match o1 with
  | Exited 0 model =>
      match o2 with
      | Exited 0 version =>
          (Ret (strip model, strip version), logged s log2 (stdout s))
      | _ => (Ret (unknown, unknown), logged s log2 (stdout s))
      end
  | _ => (Ret (unknown, unknown), logged s log1 (stdout s))
  end.
Proof.
  unfold get_device_info, logged, model_cmd, version_cmd.
  unfold bind, try_except, run, ret.
  cbv zeta. cbn [procs stdout output_dir screenshot_count clock].
  destruct (spawn w (procs s) _) as [|rc1 out1]; [reflexivity|].
  destruct rc1; cbn [Z.eqb]; try reflexivity.
  cbn [procs stdout output_dir screenshot_count clock].
  destruct (spawn w _ _) as [|rc2 out2]; [reflexivity|].
  destruct rc2; reflexivity.
Qed.

(** C9: [get_device_info] never raises.  It returns the model and the
    version, each stripped of surrounding white space, when both property
    queries exit with zero, and the pair ("Unknown", "Unknown") in every
    other case: the binary missing or a non-zero exit, at the first query
    (the second is then not made) or at the second. *)
Theorem get_device_info_total (s : state) :
  let o1 := spawn w (procs s) model_cmd in
  let o2 := spawn w (procs s ++ [(model_cmd, o1)]) version_cmd in
  fst (get_device_info w s)
  = Ret (match o1, o2 with
         | Exited 0 model, Exited 0 version => (strip model, strip version)
         | _, _ => (lit "Unknown", lit "Unknown")
         end)
  /\ map fst (procs (snd (get_device_info w s)))
     = map fst (procs s)
       ++ (if exit_ok o1 then [model_cmd; version_cmd] else [model_cmd]).
Proof.
  intros o1 o2. subst o1 o2. rewrite get_device_info_run. cbv zeta.
  destruct (spawn w (procs s) model_cmd) as [|rc1 out1];
    [split; cbn; rewrite ?map_app; reflexivity|].
  destruct rc1; try (split; cbn; rewrite ?map_app; reflexivity).
  destruct (spawn w _ version_cmd) as [|rc2 out2];
    [split; cbn; rewrite ?map_app, <- ?app_assoc; reflexivity|].
  destruct rc2; split; cbn; rewrite ?map_app, <- ?app_assoc; reflexivity.
Qed.

Lemma filter_none {A} (f : A -> bool) (l : list A) :
  (forall x, In x l -> f x = false) -> filter f l = [].
Proof.
  induction l as [|x l IH]; intro H; [reflexivity|].
  cbn [filter]. rewrite (H x (or_introl eq_refl)).
  apply IH. intros y Hy. apply H. right. exact Hy.
Qed.

Lemma filter_skip {A} (f : A -> bool) (pre : list A) (d : A) (post : list A) :
  (forall x, In x pre -> f x = false) -> f d = true ->
  filter f (pre ++ d :: post) = d :: filter f post.
Proof.
  intros Hpre Hd. rewrite filter_app, (filter_none f pre Hpre).
  cbn [app filter]. rewrite Hd. reflexivity.
Qed.

Lemma device_line_false (line : pystr) :
  strip line = [] \/ contains (lit "device") line = false ->
  device_line line = false.
Proof.
  unfold device_line. intros [H|H]; rewrite H; [reflexivity|].
  apply andb_false_r.
Qed.

(** C6: [check_adb_connection] returns [False] after printing guidance when
    the [adb] binary is missing, after printing the error when the
    enumeration exits non-zero, and after printing guidance when no line
    after the header line of the output is both non-blank and marked
    device; otherwise, with [d] the first such line, it prints the first
    white space separated word of [d] as the connected device and returns
    [True].  In every case exactly the one enumeration process is
    started. *)
Theorem check_adb_connection_cases (s : state) :
  let o := spawn w (procs s) devices_cmd in
  let r := check_adb_connection rt w s in
  procs (snd r) = procs s ++ [(devices_cmd, o)]
  /\ (o = NotFound ->
      fst r = Ret false
      /\ stdout (snd r) = stdout s ++ adb_missing_guidance)
  /\ (forall rc out,
        o = Exited rc out -> rc <> 0%Z ->
        fst r = Ret false
        /\ stdout (snd r) = stdout s ++ [adb_error_line rt devices_cmd rc])
  /\ (forall out,
        o = Exited 0 out ->
        (forall line, In line (tl (split nl out)) ->
                      strip line = [] \/ contains (lit "device") line = false) ->
        fst r = Ret false
        /\ stdout (snd r) = stdout s ++ no_device_guidance)
  /\ (forall out pre d post,
        o = Exited 0 out ->
        tl (split nl out) = pre ++ d :: post ->
        (forall line, In line pre ->
                      strip line = [] \/ contains (lit "device") line = false) ->
        strip d <> [] -> contains (lit "device") d = true ->
        exists serial rest,
          split_ws d = serial :: rest
          /\ fst r = Ret true
          /\ stdout (snd r) = stdout s ++ [connected_line serial]).
Proof.
  intros o r. subst o r. rewrite check_adb_connection_run. cbv zeta.
  split; [|split; [|split; [|split]]].
  - destruct (spawn w (procs s) devices_cmd) as [|rc out]; [reflexivity|].
    destruct (rc =? 0)%Z; [|reflexivity].
    destruct (connected_devices out) as [|d ds]; [reflexivity|].
    destruct (split_ws d); reflexivity.
  - intros ->. split; reflexivity.
  - intros rc out -> Hrc. apply Z.eqb_neq in Hrc. rewrite Hrc.
    split; reflexivity.
  - intros out -> Hnone. cbn [Z.eqb].
    assert (E : connected_devices out = []).
    { apply filter_none. intros line Hin.
      apply (device_line_false line), Hnone, Hin. }
    rewrite E. split; reflexivity.
  - intros out pre d post -> Hlines Hpre Hd1 Hd2. cbn [Z.eqb].
    assert (E : connected_devices out
                = d :: filter device_line post).
    { unfold connected_devices. rewrite Hlines.
      apply (filter_skip device_line).
      - intros line Hin. apply device_line_false, Hpre, Hin.
      - unfold device_line. rewrite Hd2, andb_true_r.
        destruct (PyStr.eqb (strip d) []) eqn:Eb; [|reflexivity].
        apply eqb_eq in Eb. contradiction. }
    rewrite E.
    destruct (split_ws d) as [|serial rest] eqn:Ew.
    + exfalso. exact (split_ws_nonblank d Hd1 Ew).
    + exists serial, rest. repeat split; reflexivity.
Qed.

End Queries.

(** ** The interactive session *)

#[local] Instance quiet_pre : PreOrder quiet.
Proof.
  split.
  - intro s. unfold quiet. auto.
  - intros s1 s2 s3 (A1 & B1 & C1 & D1) (A2 & B2 & C2 & D2).
    unfold quiet. repeat split; congruence.
Qed.

Lemma info_prints_app (a b : list pystr) :
  info_prints (a ++ b) = (info_prints a + info_prints b)%nat.
Proof. unfold info_prints. rewrite filter_app. apply length_app. Qed.

Lemma startswith_app (p x : pystr) : startswith p (p ++ x) = true.
Proof.
  induction p as [|c p IH]; [reflexivity|].
  cbn [app startswith]. rewrite N.eqb_refl. exact IH.
Qed.

Lemma pulled_file_pull (fp out : pystr) :
  pulled_file (pull_cmd fp, Exited 0 out) = Some fp.
Proof. reflexivity. Qed.

Section Session.

Variable rt : runtime.
Variable w : world.

Lemma quiet_print_end (t e : pystr) :
  startswith (phone ++ lit " Device: ") (t ++ e) = false ->
  respects quiet (print_end t e).
Proof.
  intros H s. unfold quiet, print_end. cbn [snd output_dir screenshot_count procs stdout].
  repeat split. rewrite info_prints_app. unfold info_prints at 2.
  cbn [filter]. rewrite H. cbn. lia.
Qed.

Lemma quiet_run (cmd : argv) :
  (forall o, pulled_file (cmd, o) = None) -> respects quiet (run w cmd).
Proof.
  intros H s. unfold quiet, run.
  assert (E : saved_files (procs s ++ [(cmd, spawn w (procs s) cmd)])
              = saved_files (procs s)).
  { rewrite saved_files_app. cbn [saved_files]. rewrite H. apply app_nil_r. }
  destruct (spawn w (procs s) cmd) as [|rc out]; [|destruct (rc =? 0)%Z];
    cbn [snd output_dir screenshot_count procs stdout]; auto.
Qed.

Ltac quiet_prims :=
  first [ apply quiet_print_end; reflexivity
        | apply quiet_run; intro; reflexivity ].

Lemma quiet_get_device_info : respects quiet (get_device_info w).
Proof. unfold get_device_info. frame quiet_prims. Qed.

Lemma quiet_get_display_info : respects quiet (get_display_info rt w).
Proof. unfold get_display_info. frame quiet_prims. Qed.

Lemma get_device_info_returns (s : state) :
  exists mv, fst (get_device_info w s) = Ret mv.
Proof.
  rewrite get_device_info_run. cbv zeta.
  repeat match goal with
         | |- context [match ?o with NotFound => _ | Exited _ _ => _ end] =>
             destruct o
         | |- context [match ?z with Z0 => _ | Zpos _ => _ | Zneg _ => _ end] =>
             destruct z
         end; eexists; reflexivity.
Qed.

Lemma get_display_info_returns (s : state) :
  exists info, fst (get_display_info rt w s) = Ret info.
Proof.
  unfold get_display_info, try_except.
  match goal with |- context [match ?c s with _ => _ end] =>
    destruct (c s) as [[info|e] s'] end; eexists; reflexivity.
Qed.

(** [display_device_info] returns, prints the device line once, and leaves
    the directory, the counter and the files pulled as they are. *)
Lemma display_device_info_once (s : state) :
  exists s',
    display_device_info rt w s = (Ret tt, s')
    /\ output_dir s' = output_dir s
    /\ screenshot_count s' = screenshot_count s
    /\ saved_files (procs s') = saved_files (procs s)
    /\ info_prints (stdout s') = S (info_prints (stdout s)).
Proof.
  unfold display_device_info, bind.
  destruct (get_device_info_returns s) as [mv E1].
  pose proof (quiet_get_device_info s) as (A1 & B1 & C1 & D1).
  destruct (get_device_info w s) as [r1 s1]. cbn [fst snd] in *. subst r1.
  destruct mv as [model version].
  unfold print at 1. unfold print_end at 1.
  match goal with |- context [get_display_info rt w ?x] =>
    set (s2 := x) end.
  destruct (get_display_info_returns s2) as [info E2].
  pose proof (quiet_get_display_info s2) as (A2 & B2 & C2 & D2).
  destruct (get_display_info rt w s2) as [r3 s3].
  cbn [fst snd] in *. subst r3.
  assert (D12 : info_prints (stdout s2) = S (info_prints (stdout s))).
  { subst s2. cbn [stdout]. rewrite info_prints_app, D1.
    unfold info_prints at 2. cbn [filter].
    rewrite <- !app_assoc, (app_assoc phone), startswith_app. cbn. lia. }
  subst s2. cbn [output_dir screenshot_count procs] in A2, B2, C2.
  destruct info as [i|].
  - eexists. split; [reflexivity|].
    cbn [output_dir screenshot_count procs stdout].
    repeat split; try congruence.
    rewrite !info_prints_app. cbn. lia.
  - eexists. split; [reflexivity|].
    cbn [output_dir screenshot_count procs stdout].
    repeat split; try congruence.
    rewrite !info_prints_app. cbn. lia.
Qed.

(** One turn of the loop, by the branch taken. *)
Lemma interactive_loop_line (text : pystr) (rest : list input_event) :
  interactive_loop rt w (Line text :: rest) =
  (print_end prompt [] ;;
   if PyStr.eqb (lower rt (strip text)) (lit "q") then quit_summary rt
   else if PyStr.eqb (lower rt (strip text)) (lit "i") then
     display_device_info rt w ;; interactive_loop rt w rest
   else if PyStr.eqb (strip text) [] then
     capture_screenshot rt w None ;; interactive_loop rt w rest
   else
     capture_screenshot rt w (Some (strip text)) ;; interactive_loop rt w rest)%py.
Proof. reflexivity. Qed.

Lemma print_prompt (s : state) : print_end prompt [] s = (Ret tt, prompted s).
Proof.
  unfold print_end, prompted, logged. rewrite app_nil_r. reflexivity.
Qed.

Lemma guarded_loop_quit (text : pystr) (rest : list input_event) (s : state) :
  PyStr.eqb (lower rt (strip text)) (lit "q") = true ->
  guarded_loop rt w (Line text :: rest) s
  = (Ret tt, with_summary rt nl (prompted s)).
Proof.
  intro H. unfold guarded_loop, try_except.
  rewrite interactive_loop_line. unfold bind at 1.
  rewrite print_prompt, H.
  unfold quit_summary, with_summary, logged, bind, print, print_end.
  cbn [procs stdout output_dir screenshot_count clock].
  rewrite <- ?app_assoc. reflexivity.
Qed.

Lemma guarded_loop_interrupt (rest : list input_event) (s : state) :
  guarded_loop rt w (Interrupt :: rest) s
  = (Ret tt, with_summary rt (nl ++ nl) (prompted s)).
Proof.
  unfold guarded_loop, try_except. cbn [interactive_loop].
  unfold bind at 1. rewrite print_prompt. unfold raise.
  unfold interrupt_summary, with_summary, logged, bind, print, print_end.
  cbn [procs stdout output_dir screenshot_count clock].
  rewrite <- ?app_assoc. reflexivity.
Qed.

Lemma guarded_loop_info (text : pystr) (rest : list input_event)
      (s s1 : state) :
  PyStr.eqb (lower rt (strip text)) (lit "q") = false ->
  PyStr.eqb (lower rt (strip text)) (lit "i") = true ->
  display_device_info rt w (prompted s) = (Ret tt, s1) ->
  guarded_loop rt w (Line text :: rest) s = guarded_loop rt w rest s1.
Proof.
  intros Hq Hi E. unfold guarded_loop, try_except.
  rewrite interactive_loop_line. unfold bind at 1.
  rewrite print_prompt, Hq, Hi. unfold bind at 1. rewrite E. reflexivity.
Qed.

Lemma guarded_loop_auto (text : pystr) (rest : list input_event)
      (s s1 : state) (b : bool) :
  PyStr.eqb (lower rt (strip text)) (lit "q") = false ->
  PyStr.eqb (lower rt (strip text)) (lit "i") = false ->
  PyStr.eqb (strip text) [] = true ->
  capture_screenshot rt w None (prompted s) = (Ret b, s1) ->
  guarded_loop rt w (Line text :: rest) s = guarded_loop rt w rest s1.
Proof.
  intros Hq Hi He E. unfold guarded_loop, try_except.
  rewrite interactive_loop_line. unfold bind at 1.
  rewrite print_prompt, Hq, Hi, He. unfold bind at 1. rewrite E. reflexivity.
Qed.

Lemma guarded_loop_named (text : pystr) (rest : list input_event)
      (s s1 : state) (b : bool) :
  PyStr.eqb (lower rt (strip text)) (lit "q") = false ->
  PyStr.eqb (lower rt (strip text)) (lit "i") = false ->
  PyStr.eqb (strip text) [] = false ->
  capture_screenshot rt w (Some (strip text)) (prompted s) = (Ret b, s1) ->
  guarded_loop rt w (Line text :: rest) s = guarded_loop rt w rest s1.
Proof.
  intros Hq Hi He E. unfold guarded_loop, try_except.
  rewrite interactive_loop_line. unfold bind at 1.
  rewrite print_prompt, Hq, Hi, He. unfold bind at 1. rewrite E. reflexivity.
Qed.

(** A capture all of whose steps succeed. *)
Lemma capture_screenshot_ok (name : option pystr) (s : state) :
  (forall log cmd, capture_step cmd -> exit_ok (spawn w log cmd) = true) ->
  exists s',
    capture_screenshot rt w name s = (Ret true, s')
    /\ output_dir s' = output_dir s
    /\ screenshot_count s' = S (screenshot_count s)
    /\ clock s' = S (clock s)
    /\ saved_files (procs s')
       = saved_files (procs s) ++ [capture_filepath rt w name s]
    /\ stdout s'
       = stdout s ++ [capturing_line;
                      saved_line (capture_filepath rt w name s)].
Proof.
  intro Hok. rewrite capture_screenshot_run. cbv zeta.
  set (fp := capture_filepath rt w name s).
  destruct (exit_ok_inv _ (Hok (procs s) screencap_cmd (or_introl eq_refl)))
    as [out1 E1].
  rewrite E1. cbn [Z.eqb].
  match goal with |- context [spawn w ?l (pull_cmd fp)] =>
    destruct (exit_ok_inv _ (Hok l (pull_cmd fp)
                               (or_intror (or_intror (ex_intro _ fp eq_refl)))))
      as [out2 E2] end.
  rewrite E2. cbn [Z.eqb].
  match goal with |- context [spawn w ?l rm_cmd] =>
    destruct (exit_ok_inv _ (Hok l rm_cmd (or_intror (or_introl eq_refl))))
      as [out3 E3] end.
  rewrite E3. cbn [Z.eqb].
  eexists. split; [reflexivity|].
  cbn [captured output_dir screenshot_count clock procs stdout].
  repeat split.
  - rewrite !saved_files_app. cbn [saved_files].
    rewrite pulled_file_pull. cbn. rewrite !app_nil_r. reflexivity.
  - rewrite <- app_assoc. reflexivity.
Qed.

(** C3: on the input lines login, (empty), i, q, with every step of every
    capture succeeding and the counter at 0, the loop returns normally; it
    has pulled exactly two files, first the one named after login, then the
    automatically named one (numbered 002: the counter advanced for the
    named capture too); it has printed the device line once; it ends by
    printing the summary, which reports 2 screenshots.  Q and I are taken
    as q and i.  Ctrl-C at the prompt does not propagate: the loop returns
    after printing the summary lines of q, with one more empty line before
    them. *)
Theorem interactive_session (s : state)
        (Hok : forall log cmd,
            capture_step cmd -> exit_ok (spawn w log cmd) = true)
        (Hzero : screenshot_count s = 0%nat) :
  let r := guarded_loop rt w
             [Line (lit "login"); Line []; Line (lit "i"); Line (lit "q")] s in
  fst r = Ret tt
  /\ saved_files (procs (snd r))
     = saved_files (procs s)
       ++ [path_join rt (output_dir s)
             (lit "login_" ++ strftime (now w (clock s)) ++ lit ".png");
           path_join rt (output_dir s)
             (lit "screenshot_002_" ++ strftime (now w (S (clock s)))
              ++ lit ".png")]
  /\ info_prints (stdout (snd r)) = S (info_prints (stdout s))
  /\ screenshot_count (snd r) = 2%nat
  /\ (exists out,
        stdout (snd r)
        = out ++ [nl ++ check_mark ++ lit " Done! Captured 2 screenshots" ++ nl;
                  location_line rt (output_dir s) ++ nl])
  /\ (forall rest,
        interactive_loop rt w (Line (lit "Q") :: rest)
        = interactive_loop rt w (Line (lit "q") :: rest)
        /\ interactive_loop rt w (Line (lit "I") :: rest)
           = interactive_loop rt w (Line (lit "i") :: rest))
  /\ (forall rest s0,
        guarded_loop rt w (Line (lit "q") :: rest) s0
        = (Ret tt, with_summary rt nl (prompted s0))
        /\ guarded_loop rt w (Interrupt :: rest) s0
           = (Ret tt, with_summary rt (nl ++ nl) (prompted s0))).
Proof.
  intro r. subst r.
  assert (Q1 : PyStr.eqb (lower rt (strip (lit "login"))) (lit "q") = false)
    by (vm_compute; reflexivity).
  assert (Q2 : PyStr.eqb (lower rt (strip (lit "login"))) (lit "i") = false)
    by (vm_compute; reflexivity).
  assert (Q3 : PyStr.eqb (strip (lit "login")) [] = false)
    by (vm_compute; reflexivity).
  assert (Q4 : PyStr.eqb (lower rt (strip [])) (lit "q") = false)
    by (vm_compute; reflexivity).
  assert (Q5 : PyStr.eqb (lower rt (strip [])) (lit "i") = false)
    by (vm_compute; reflexivity).
  assert (Q6 : PyStr.eqb (strip []) [] = true) by (vm_compute; reflexivity).
  assert (Q7 : PyStr.eqb (lower rt (strip (lit "i"))) (lit "q") = false)
    by (vm_compute; reflexivity).
  assert (Q8 : PyStr.eqb (lower rt (strip (lit "i"))) (lit "i") = true)
    by (vm_compute; reflexivity).
  assert (Q9 : PyStr.eqb (lower rt (strip (lit "q"))) (lit "q") = true)
    by (vm_compute; reflexivity).
  destruct (capture_screenshot_ok (Some (strip (lit "login"))) (prompted s) Hok)
    as (s1 & E1 & A1 & B1 & C1 & D1 & O1).
  rewrite (guarded_loop_named (lit "login") _ s s1 true Q1 Q2 Q3 E1).
  destruct (capture_screenshot_ok None (prompted s1) Hok)
    as (s2 & E2 & A2 & B2 & C2 & D2 & O2).
  rewrite (guarded_loop_auto [] _ s1 s2 true Q4 Q5 Q6 E2).
  destruct (display_device_info_once (prompted s2))
    as (s3 & E3 & A3 & B3 & D3 & I3).
  rewrite (guarded_loop_info (lit "i") _ s2 s3 Q7 Q8 E3).
  rewrite (guarded_loop_quit (lit "q") _ s3 Q9).
  cbn [fst snd with_summary prompted logged procs stdout output_dir
       screenshot_count clock] in *.
  assert (Hc : screenshot_count s3 = 2%nat) by congruence.
  split; [reflexivity|]. split; [|split; [|split; [|split; [|split]]]].
  - rewrite D3, D2, D1. unfold capture_filepath.
    cbn [prompted logged procs stdout output_dir screenshot_count clock].
    rewrite A1, B1, C1, Hzero, <- app_assoc.
    assert (F1 : filename rt (Some (strip (lit "login"))) 1
                   (strftime (now w (clock s)))
                 = lit "login_" ++ strftime (now w (clock s)) ++ lit ".png")
      by (unfold filename; cbn [strip]; vm_compute; reflexivity).
    assert (F2 : forall ts, filename rt None 2 ts
                 = lit "screenshot_002_" ++ ts ++ lit ".png")
      by (intro ts; vm_compute; reflexivity).
    rewrite F1, F2. reflexivity.
  - rewrite !info_prints_app, I3, !info_prints_app, O2, !info_prints_app,
      O1, !info_prints_app.
    assert (P0 : info_prints [prompt] = 0%nat) by (vm_compute; reflexivity).
    assert (P1 : forall fp, info_prints [capturing_line; saved_line fp] = 0%nat)
      by (intro fp; vm_compute; reflexivity).
    assert (P2 : forall a b, info_prints [nl ++ a; folder ++ b] = 0%nat)
      by (intros a b; vm_compute; reflexivity).
    rewrite P0, !P1. unfold done_line, location_line.
    rewrite <- !app_assoc, P2. lia.
  - exact Hc.
  - exists (stdout s3 ++ [prompt]).
    rewrite Hc, A3, A2, A1.
    assert (L : done_line 2 = check_mark ++ lit " Done! Captured 2 screenshots")
      by (vm_compute; reflexivity).
    rewrite L, <- !app_assoc. reflexivity.
  - intro rest. split; rewrite !interactive_loop_line.
    + assert (L : lower rt (strip (lit "Q")) = lower rt (strip (lit "q"))) by (vm_compute; reflexivity).
      rewrite L, Q9. reflexivity.
    + assert (L : lower rt (strip (lit "I")) = lower rt (strip (lit "i"))) by (vm_compute; reflexivity).
      rewrite L, Q7, Q8. reflexivity.
  - intros rest s0. split.
    + apply guarded_loop_quit. exact Q9.
    + apply guarded_loop_interrupt.
Qed.

(** C10: the loop dispatches on the line stripped of surrounding white
    space: a line and its stripped form are treated alike; a line of white
    space only leads to a capture without a screen name; the lines " q "
    and " I " lead to the summary and to the device information. *)
Theorem interactive_loop_strips (text : pystr) (rest : list input_event)
        (Hblank : forallb isspace text = true) :
  interactive_loop rt w (Line text :: rest)
  = (print_end prompt [] ;;
     capture_screenshot rt w None ;; interactive_loop rt w rest)%py
  /\ (forall line,
        interactive_loop rt w (Line line :: rest)
        = interactive_loop rt w (Line (strip line) :: rest))
  /\ interactive_loop rt w (Line (lit " q ") :: rest)
     = (print_end prompt [] ;; quit_summary rt)%py
  /\ interactive_loop rt w (Line (lit " I ") :: rest)
     = (print_end prompt [] ;;
        display_device_info rt w ;; interactive_loop rt w rest)%py.
Proof.
  split; [|split; [|split]].
  - rewrite interactive_loop_line.
    apply strip_nil in Hblank. rewrite Hblank.
    assert (Q1 : PyStr.eqb (lower rt []) (lit "q") = false)
      by (vm_compute; reflexivity).
    assert (Q2 : PyStr.eqb (lower rt []) (lit "i") = false)
      by (vm_compute; reflexivity).
    rewrite Q1, Q2, eqb_refl. reflexivity.
  - intro line. rewrite !interactive_loop_line, strip_strip. reflexivity.
  - rewrite interactive_loop_line.
    assert (Q : PyStr.eqb (lower rt (strip (lit " q "))) (lit "q") = true)
      by (vm_compute; reflexivity).
    rewrite Q. reflexivity.
  - rewrite interactive_loop_line.
    assert (Q1 : PyStr.eqb (lower rt (strip (lit " I "))) (lit "q") = false)
      by (vm_compute; reflexivity).
    assert (Q2 : PyStr.eqb (lower rt (strip (lit " I "))) (lit "i") = true)
      by (vm_compute; reflexivity).
    rewrite Q1, Q2. reflexivity.
Qed.

End Session.

(** ** Concrete runs *)

Lemma argv_eqb_false (c d : argv) : c <> d -> argv_eqb c d = false.
Proof.
  intro H. unfold argv_eqb.
  destruct (list_eq_dec (list_eq_dec N.eq_dec) c d); [contradiction|reflexivity].
Qed.

(** On the sample phone every step of every capture succeeds. *)
Lemma phone_1080_captures (log : list (argv * proc_outcome)) (cmd : argv) :
  capture_step cmd -> exit_ok (spawn phone_1080 log cmd) = true.
Proof.
  intros [-> | [-> | [fp ->]]]; [vm_compute; reflexivity ..|].
  cbn [phone_1080 scripted_world spawn answer].
  rewrite !argv_eqb_false; [reflexivity | ..];
    intro E; vm_compute in E; discriminate E.
Qed.

Lemma capture_screenshot_steps_witness :
  exit_ok (outcome flaky_pull []
             (capture_cmds sample_runtime flaky_pull None (idle (lit "shots") 0))
             0) = true
  /\ outcome flaky_pull []
       (capture_cmds sample_runtime flaky_pull None (idle (lit "shots") 0)) 1
     = Exited 1 []
  /\ capture_screenshot sample_runtime flaky_pull None (idle (lit "shots") 0)
     = (Ret false,
        captured (idle (lit "shots") 0)
          [(screencap_cmd, Exited 0 []);
           (pull_cmd (lit "shots/screenshot_001_20240101_120000.png"),
            Exited 1 [])]
          [capturing_line;
           failed_line sample_runtime
             (pull_cmd (lit "shots/screenshot_001_20240101_120000.png")) 1]).
Proof.
  split; [vm_compute; reflexivity|]. split; [vm_compute; reflexivity|].
  refine (proj1 (capture_screenshot_steps sample_runtime flaky_pull None
                   (idle (lit "shots") 0)) 1%nat 1%Z [] _ _ _ _).
  - lia.
  - intros j Hj. assert (j = 0%nat) as -> by lia. vm_compute. reflexivity.
  - vm_compute. reflexivity.
  - discriminate.
Defined.

Lemma interactive_session_witness :
  screenshot_count (idle (lit "shots") 0) = 0%nat
  /\ saved_files
       (procs (snd (guarded_loop sample_runtime phone_1080
                      [Line (lit "login"); Line []; Line (lit "i");
                       Line (lit "q")]
                      (idle (lit "shots") 0))))
     = [lit "shots/login_20240101_120000.png";
        lit "shots/screenshot_002_20240101_120000.png"].
Proof.
  split; [reflexivity|].
  exact (proj1 (proj2 (interactive_session sample_runtime phone_1080
                         (idle (lit "shots") 0) phone_1080_captures
                         eq_refl))).
Defined.

Lemma auto_named_capture_witness :
  spawn phone_1080 (procs (idle (lit "shots") 2)) screencap_cmd = Exited 0 []
  /\ map fst
       (firstn 2
          (procs (snd (capture_screenshot sample_runtime phone_1080 None
                         (idle (lit "shots") 2)))))
     = [screencap_cmd;
        pull_cmd (lit "shots/screenshot_003_20240101_120000.png")].
Proof.
  split; [reflexivity|].
  exact (proj1 (auto_named_capture sample_runtime phone_1080
                  (idle (lit "shots") 2) [] eq_refl)).
Defined.

Lemma check_adb_connection_cases_witness :
  exists serial rest,
    split_ws (lit "emulator-5554" ++ [9%N] ++ lit "device") = serial :: rest
    /\ fst (check_adb_connection sample_runtime phone_1080
                                 (idle (lit "shots") 0)) = Ret true
    /\ stdout (snd (check_adb_connection sample_runtime phone_1080
                                         (idle (lit "shots") 0)))
       = [] ++ [connected_line serial].
Proof.
  refine (proj2 (proj2 (proj2 (proj2
            (check_adb_connection_cases sample_runtime phone_1080
               (idle (lit "shots") 0)))))
            devices_out [] (lit "emulator-5554" ++ [9%N] ++ lit "device")
            [[]; []] _ _ _ _ _).
  - reflexivity.
  - vm_compute. reflexivity.
  - intros line [].
  - vm_compute. discriminate.
  - vm_compute. reflexivity.
Defined.

Lemma interactive_loop_strips_witness :
  forallb isspace (lit "  " ++ [9%N]) = true
  /\ interactive_loop sample_runtime phone_1080 [Line (lit "  " ++ [9%N])]
     = (print_end prompt [] ;;
        capture_screenshot sample_runtime phone_1080 None ;;
        interactive_loop sample_runtime phone_1080 [])%py.
Proof.
  split; [reflexivity|].
  exact (proj1 (interactive_loop_strips sample_runtime phone_1080
                  (lit "  " ++ [9%N]) [] eq_refl)).
Defined.

(** * Further properties *)

(** ** Numerals: [int(str(n))] *)

Section Numerals.

Variable rt : runtime.

Lemma parse_digit_step (c : char) (s : pystr) (acc : N) (b : bool) :
  is_digit c = true ->
  parse_digits rt acc b (c :: s) = parse_digits rt (10 * acc + (c - 48)) true s.
Proof.
  intro H. cbn [parse_digits]. unfold digit_val. unfold is_digit in H.
  rewrite H. apply andb_true_iff in H. destruct H as [_ H].
  apply N.leb_le in H.
  destruct (c =? 95)%N eqn:E; [apply N.eqb_eq in E; lia|reflexivity].
Qed.

Lemma parse_numeral (d : Decimal.uint) (acc : N) (b : bool) :
  parse_digits rt acc b (lit (NilEmpty.string_of_uint d))
  = match d with
    | Decimal.Nil => if b then Some acc else None
    | _ => Some (uint_value d acc)
    end.
Proof.
  revert acc b.
  induction d as [|d IH|d IH|d IH|d IH|d IH|d IH|d IH|d IH|d IH|d IH];
    intros acc b; [reflexivity|..];
    cbn [NilEmpty.string_of_uint uint_value];
    change (lit (String ?a ?r)) with (N_of_ascii a :: lit r);
    rewrite parse_digit_step by reflexivity; rewrite IH;
    try (change (N_of_ascii "0" - 48)%N with 0%N; rewrite N.add_0_r);
    destruct d; reflexivity.
Qed.

Lemma numeral_digits (d : Decimal.uint) :
  forallb is_digit (lit (NilEmpty.string_of_uint d)) = true.
Proof.
  induction d; [reflexivity|..];
    cbn [NilEmpty.string_of_uint];
    change (lit (String ?a ?r)) with (N_of_ascii a :: lit r);
    cbn [forallb]; rewrite IHd; reflexivity.
Qed.

Lemma uint_value_pos (d : Decimal.uint) (acc : positive) :
  uint_value d (Npos acc) = Npos (Pos.of_uint_acc d acc).
Proof.
  revert acc. induction d; intro acc; [reflexivity|..];
    cbn [uint_value Pos.of_uint_acc];
    match goal with
    | |- uint_value _ ?a = N.pos (Pos.of_uint_acc _ ?b) =>
        replace a with (N.pos b) by lia
    end; apply IHd.
Qed.

Lemma uint_value_of_uint (d : Decimal.uint) : uint_value d 0 = Pos.of_uint d.
Proof.
  induction d; [reflexivity| exact IHd |..];
    cbn [uint_value Pos.of_uint]; apply uint_value_pos.
Qed.

Lemma uint_value_nat (d : Decimal.uint) (acc : nat) :
  uint_value d (N.of_nat acc) = N.of_nat (Nat.of_uint_acc d acc).
Proof.
  revert acc. induction d; intro acc; [reflexivity|..];
    cbn [uint_value Nat.of_uint_acc]; rewrite <- IHd; f_equal;
    rewrite Nat.tail_mul_spec; lia.
Qed.

Lemma digit_nonspace (c : char) : is_digit c = true -> isspace c = false.
Proof.
  unfold is_digit. intro H. apply andb_true_iff in H. destruct H as [H1 H2].
  apply N.leb_le in H1, H2. unfold isspace.
  assert (A1 : (c <=? 13)%N = false) by (apply N.leb_gt; lia).
  assert (A2 : (c <=? 32)%N = false) by (apply N.leb_gt; lia).
  assert (A3 : (8192 <=? c)%N = false) by (apply N.leb_gt; lia).
  rewrite A1, A2, A3, !andb_false_r.
  repeat match goal with
         | |- context [(c =? ?k)%N] =>
             replace (c =? k)%N with false by (symmetry; apply N.eqb_neq; lia)
         end.
  reflexivity.
Qed.

Lemma digit_not_sign (c : char) :
  is_digit c = true -> (c =? 45)%N = false /\ (c =? 43)%N = false.
Proof.
  unfold is_digit. intro H. apply andb_true_iff in H. destruct H as [H1 H2].
  apply N.leb_le in H1, H2. split; apply N.eqb_neq; lia.
Qed.

Lemma lstrip_nospace (s : pystr) :
  forallb (fun c => negb (isspace c)) s = true -> lstrip s = s.
Proof.
  destruct s as [|c r]; [reflexivity|]. cbn [forallb lstrip].
  intro H. apply andb_true_iff in H. destruct H as [H _].
  apply negb_true_iff in H. rewrite H. reflexivity.
Qed.

Lemma strip_nospace (s : pystr) :
  forallb (fun c => negb (isspace c)) s = true -> strip s = s.
Proof.
  intro H. unfold strip, rstrip. rewrite (lstrip_nospace s H).
  rewrite lstrip_nospace; [apply rev_involutive|].
  rewrite forallb_forall in *. intros c Hc. apply H, in_rev, Hc.
Qed.

Lemma digits_nospace (s : pystr) :
  forallb is_digit s = true -> forallb (fun c => negb (isspace c)) s = true.
Proof.
  rewrite !forallb_forall. intros H c Hc.
  apply negb_true_iff, digit_nonspace, H, Hc.
Qed.

(** Reading back a numeral that has at least one digit. *)
Lemma py_int_digits (d : Decimal.uint) :
  d <> Decimal.Nil ->
  py_int rt (lit (NilEmpty.string_of_uint d)) = Ret (Z.of_N (uint_value d 0))
  /\ py_int rt (45%N :: lit (NilEmpty.string_of_uint d))
     = Ret (- Z.of_N (uint_value d 0))%Z.
Proof.
  intro Hd. pose proof (numeral_digits d) as Hdig.
  pose proof (parse_numeral d 0 false) as Hp.
  assert (Hp' : parse_digits rt 0 false (lit (NilEmpty.string_of_uint d))
                = Some (uint_value d 0)) by (destruct d; congruence).
  unfold py_int. split.
  - rewrite (strip_nospace _ (digits_nospace _ Hdig)).
    destruct (lit (NilEmpty.string_of_uint d)) as [|c r] eqn:E.
    + destruct d; try contradiction; discriminate E.
    + cbn [forallb] in Hdig. apply andb_true_iff in Hdig.
      destruct Hdig as [Hc _]. destruct (digit_not_sign c Hc) as [E1 E2].
      rewrite E1, E2, Hp'. reflexivity.
  - rewrite strip_nospace.
    + rewrite N.eqb_refl, Hp'. reflexivity.
    + cbn [forallb]. rewrite (digits_nospace _ Hdig). reflexivity.
Qed.

(** [int(str(z)) == z] *)
Lemma py_int_str_of_Z (z : Z) : py_int rt (str_of_Z z) = Ret z.
Proof.
  destruct z as [|p|p].
  - vm_compute. reflexivity.
  - unfold str_of_Z. cbn [Z.to_int NilZero.string_of_int].
    pose proof (Unsigned.to_uint_nonnil p) as Hd.
    replace (NilZero.string_of_uint (Pos.to_uint p))
      with (NilEmpty.string_of_uint (Pos.to_uint p))
      by (destruct (Pos.to_uint p); [congruence | reflexivity ..]).
    rewrite (proj1 (py_int_digits _ Hd)), uint_value_of_uint,
      DecimalPos.Unsigned.of_to.
    reflexivity.
  - unfold str_of_Z. cbn [Z.to_int NilZero.string_of_int].
    pose proof (Unsigned.to_uint_nonnil p) as Hd.
    replace (NilZero.string_of_uint (Pos.to_uint p))
      with (NilEmpty.string_of_uint (Pos.to_uint p))
      by (destruct (Pos.to_uint p); [congruence | reflexivity ..]).
    change (lit (String "-" ?r)) with (45%N :: lit r).
    rewrite (proj2 (py_int_digits _ Hd)), uint_value_of_uint,
      DecimalPos.Unsigned.of_to.
    reflexivity.
Qed.

Lemma parse_leading_zeros (m : nat) (b : bool) (s : pystr) :
  parse_digits rt 0 b (repeat 48%N m ++ s)
  = parse_digits rt 0 (b || negb (Nat.eqb m 0)) s.
Proof.
  revert b. induction m as [|m IH]; intro b.
  - cbn. rewrite orb_false_r. reflexivity.
  - cbn [repeat app]. rewrite parse_digit_step by reflexivity.
    change (10 * 0 + (48 - 48))%N with 0%N. rewrite IH.
    cbn. rewrite orb_true_r. reflexivity.
Qed.

Lemma parse_nilzero (d : Decimal.uint) (b : bool) :
  parse_digits rt 0 b (lit (NilZero.string_of_uint d))
  = Some (N.of_nat (Nat.of_uint d)).
Proof.
  unfold Nat.of_uint. rewrite <- (uint_value_nat d 0).
  destruct d; [vm_compute; reflexivity | ..];
    match goal with
    | |- context [NilZero.string_of_uint ?x] =>
        change (NilZero.string_of_uint x) with (NilEmpty.string_of_uint x);
        apply (parse_numeral x)
    end.
Qed.

Lemma parse_str_of_nat (n : nat) (b : bool) :
  parse_digits rt 0 b (str_of_nat n) = Some (N.of_nat n).
Proof.
  unfold str_of_nat. rewrite parse_nilzero, DecimalNat.Unsigned.of_to.
  reflexivity.
Qed.

(** A zero-padded counter reads back as the counter. *)
Lemma parse_zero_pad (width n : nat) :
  parse_digits rt 0 false (zero_pad width n) = Some (N.of_nat n).
Proof.
  unfold zero_pad. rewrite parse_leading_zeros. apply parse_str_of_nat.
Qed.

End Numerals.

(** ** Text of a known shape *)

Lemma lstrip_blank_app (ws s : pystr) :
  forallb isspace ws = true -> lstrip (ws ++ s) = lstrip s.
Proof.
  induction ws as [|c ws IH]; [reflexivity|]. cbn [forallb app lstrip].
  intro H. apply andb_true_iff in H. destruct H as [Hc Hws].
  rewrite Hc. apply IH, Hws.
Qed.

(** Stripping text that is white space, a core without white space at
    either end, and white space again, leaves the core. *)
Lemma strip_padded (ws1 core ws2 : pystr) :
  forallb isspace ws1 = true -> forallb isspace ws2 = true ->
  lstrip core = core -> lstrip (rev core) = rev core ->
  strip (ws1 ++ core ++ ws2) = core.
Proof.
  intros H1 H2 Hl Hr. unfold strip, rstrip. rewrite (lstrip_blank_app _ _ H1).
  destruct core as [|c r].
  - cbn [app]. apply lstrip_nil in H2. rewrite H2. reflexivity.
  - pose proof (lstrip_head _ _ _ Hl) as Hc.
    change ((c :: r) ++ ws2) with (c :: (r ++ ws2)).
    rewrite (lstrip_fixed _ _ Hc).
    change (c :: r ++ ws2) with ((c :: r) ++ ws2).
    rewrite rev_app_distr, lstrip_blank_app, Hr; [apply rev_involutive|].
    rewrite forallb_forall in *. intros x Hx. apply H2, in_rev, Hx.
Qed.

Lemma contains_prefix (p x : pystr) : contains p (p ++ x) = true.
Proof.
  destruct (p ++ x) as [|c r] eqn:E; cbn [contains];
    rewrite <- E, startswith_app; reflexivity.
Qed.

Lemma split_from_skip (sep p cur rest : pystr) :
  split_from sep (List.length p) cur (p ++ rest) = split_from sep 0 cur rest.
Proof.
  induction p as [|c p IH]; [reflexivity|]. cbn [List.length app split_from].
  exact IH.
Qed.

Lemma startswith_other (c0 c : char) (sep s : pystr) :
  c <> c0 -> startswith (c0 :: sep) (c :: s) = false.
Proof.
  intro H. cbn [startswith].
  replace (c0 =? c)%N with false; [reflexivity|].
  symmetry. apply N.eqb_neq. congruence.
Qed.

(** No occurrence of the first character of the separator: one piece. *)
Lemma split_from_plain (c0 : char) (sep cur s : pystr) :
  (forall c, In c s -> c <> c0) ->
  split_from (c0 :: sep) 0 cur s = [rev cur ++ s].
Proof.
  revert cur. induction s as [|c s IH]; intros cur H.
  - cbn. rewrite app_nil_r. reflexivity.
  - cbn [split_from].
    rewrite (startswith_other c0 c sep s (H c (or_introl eq_refl))).
    rewrite IH by (intros x Hx; apply H; right; exact Hx).
    cbn [rev]. rewrite <- app_assoc. reflexivity.
Qed.

(** The first piece ends at the first separator. *)
Lemma split_from_first (c0 : char) (sep cur piece rest : pystr) :
  (forall c, In c piece -> c <> c0) ->
  split_from (c0 :: sep) 0 cur (piece ++ (c0 :: sep) ++ rest)
  = (rev cur ++ piece) :: split_from (c0 :: sep) 0 [] rest.
Proof.
  revert cur. induction piece as [|c piece IH]; intros cur H.
  - cbn [app split_from].
    change (c0 :: sep ++ rest) with ((c0 :: sep) ++ rest).
    rewrite startswith_app, app_nil_r.
    cbn [List.length Nat.sub]. rewrite Nat.sub_0_r.
    rewrite split_from_skip. reflexivity.
  - cbn [app split_from].
    rewrite (startswith_other c0 c sep _ (H c (or_introl eq_refl))).
    rewrite IH by (intros x Hx; apply H; right; exact Hx).
    cbn [rev]. rewrite <- app_assoc. reflexivity.
Qed.

Lemma numeral_char_facts (c : char) :
  numeral_char c = true ->
  isspace c = false /\ c <> 120%N /\ c <> 80%N /\ c <> 32%N.
Proof.
  unfold numeral_char. intro H. apply orb_true_iff in H.
  destruct H as [H|H].
  - split; [apply digit_nonspace, H|].
    unfold is_digit in H. apply andb_true_iff in H. destruct H as [H1 H2].
    apply N.leb_le in H1, H2. repeat split; lia.
  - apply N.eqb_eq in H. subst c. repeat split; try discriminate.
Qed.

Lemma str_of_Z_chars (z : Z) : forallb numeral_char (str_of_Z z) = true.
Proof.
  assert (D : forall d, forallb numeral_char (lit (NilZero.string_of_uint d))
                        = true).
  { intro d. destruct d; [reflexivity|..];
      match goal with
      | |- context [NilZero.string_of_uint ?x] =>
          change (NilZero.string_of_uint x) with (NilEmpty.string_of_uint x);
          pose proof (numeral_digits x) as H
      end;
      rewrite forallb_forall in *; intros c Hc; unfold numeral_char;
      rewrite (H c Hc); reflexivity. }
  unfold str_of_Z. destruct (Z.to_int z) as [d|d]; cbn [NilZero.string_of_int].
  - apply D.
  - change (lit (String "-" ?r)) with (45%N :: lit r).
    cbn [forallb]. rewrite D. reflexivity.
Qed.

Lemma str_of_Z_nonempty (z : Z) : str_of_Z z <> [].
Proof.
  unfold str_of_Z. destruct (Z.to_int z) as [d|d]; cbn [NilZero.string_of_int].
  - destruct d; discriminate.
  - discriminate.
Qed.

Lemma str_of_Z_head (z : Z) :
  exists c r, str_of_Z z = c :: r /\ isspace c = false.
Proof.
  pose proof (str_of_Z_chars z) as H. pose proof (str_of_Z_nonempty z) as N.
  destruct (str_of_Z z) as [|c r]; [contradiction|].
  exists c, r. split; [reflexivity|].
  cbn [forallb] in H. apply andb_true_iff in H.
  apply (numeral_char_facts c), H.
Qed.

Lemma str_of_Z_last (z : Z) :
  exists c r, rev (str_of_Z z) = c :: r /\ isspace c = false.
Proof.
  pose proof (str_of_Z_chars z) as H. pose proof (str_of_Z_nonempty z) as N.
  destruct (rev (str_of_Z z)) as [|c r] eqn:E.
  - apply (f_equal (@rev char)) in E. rewrite rev_involutive in E.
    contradiction.
  - exists c, r. split; [reflexivity|].
    rewrite forallb_forall in H. apply (numeral_char_facts c), H, in_rev.
    rewrite E. left. reflexivity.
Qed.

(** A line [<label> <body>] followed by an end of line, where the label
    starts with P and the body has no P and no white space at its ends: the
    stripped line holds the label, the text after the label is the body with
    a space before it, and stripping that gives the body. *)
Lemma labelled_line (t body : pystr) (c : char) (r : pystr) :
  (forall x, In x body -> x <> 80%N) ->
  lstrip body = body -> rev body = c :: r -> isspace c = false ->
  let label := 80%N :: t in
  let line := strip (label ++ lit " " ++ body ++ nl) in
  contains label line = true
  /\ second_item (split label line) = Ret (lit " " ++ body)
  /\ strip (lit " " ++ body) = body.
Proof.
  intros Hno Hl Hrev Hc label line.
  assert (Hr : lstrip (rev body) = rev body)
    by (rewrite Hrev; apply lstrip_fixed, Hc).
  assert (E : line = label ++ lit " " ++ body).
  { subst line.
    replace (label ++ lit " " ++ body ++ nl)
      with ([] ++ ((label ++ lit " ") ++ body) ++ nl)
      by (cbn [app]; rewrite <- !app_assoc; reflexivity).
    transitivity ((label ++ lit " ") ++ body);
      [|rewrite <- app_assoc; reflexivity].
    apply (strip_padded [] ((label ++ lit " ") ++ body) nl);
      try reflexivity.
    unfold pystr, char in *. rewrite rev_app_distr, Hrev.
    apply lstrip_fixed, Hc. }
  rewrite E. split; [apply contains_prefix|]. split.
  - unfold split.
    rewrite <- (app_nil_l (label ++ lit " " ++ body)).
    subst label. rewrite split_from_first by (intros x []).
    rewrite split_from_plain; [reflexivity|].
    intros x [<-|Hx]; [discriminate|apply Hno, Hx].
  - rewrite <- (app_nil_r body) at 1.
    apply (strip_padded (lit " ") body []); auto.
Qed.

Section ReadingTheDisplay.

Variable rt : runtime.

Lemma parse_resolution_printed (width height : Z) :
  parse_resolution rt (str_of_Z width ++ lit "x" ++ str_of_Z height)
  = Ret (width, height).
Proof.
  pose proof (str_of_Z_chars width) as Hw.
  pose proof (str_of_Z_chars height) as Hh.
  rewrite forallb_forall in Hw, Hh.
  assert (E : split (lit "x") (str_of_Z width ++ lit "x" ++ str_of_Z height)
              = [str_of_Z width; str_of_Z height]).
  { unfold split. change (lit "x") with [120%N].
    etransitivity.
    - apply (split_from_first 120%N [] [] (str_of_Z width)
                              (str_of_Z height)).
      intros c Hc. apply (numeral_char_facts c), Hw, Hc.
    - cbn [rev app]. f_equal. apply split_from_plain.
      intros c Hc. apply (numeral_char_facts c), Hh, Hc. }
  unfold parse_resolution. rewrite E, !py_int_str_of_Z. reflexivity.
Qed.

Variable w : world.

(** The run of [get_display_info], by what the two queries give. *)
Lemma get_display_info_run (s : state) :
  get_display_info rt w s =
  let o1 := spawn w (procs s) wm_size_cmd in
  let log1 := procs s ++ [(wm_size_cmd, o1)] in
  let o2 := spawn w log1 wm_density_cmd in
  let log2 := log1 ++ [(wm_density_cmd, o2)] in
  match read_size rt o1 with
  | Ret wh =>
      match read_density rt o2 with
      | Ret dens => (Ret (make_info wh dens), logged s log2 (stdout s))
      | Raise _ => (Ret None, logged s log2 (stdout s))
      end
  | Raise _ => (Ret None, logged s log1 (stdout s))
  end.
Proof.
  unfold get_display_info, read_size, read_density, make_info, logged,
    wm_size_cmd, wm_density_cmd.
  unfold bind, try_except, run, ret, lift. cbv zeta.
  cbn [procs stdout output_dir screenshot_count clock].
  destruct (spawn w (procs s) _) as [|rc1 out1]; [reflexivity|].
  destruct rc1; cbn [Z.eqb]; try reflexivity.
  destruct (contains size_label (strip out1)); [|reflexivity].
  destruct (second_item _) as [resolution|e]; [|reflexivity].
  destruct (parse_resolution rt (strip resolution)) as [[width height]|e];
    [|reflexivity].
  cbn [procs stdout output_dir screenshot_count clock fst snd].
  destruct (spawn w _ _) as [|rc2 out2]; [reflexivity|].
  destruct rc2; cbn [Z.eqb]; try reflexivity.
  destruct (contains density_label (strip out2)); [|reflexivity].
  destruct (second_item _) as [d|e]; [|reflexivity].
  destruct (py_int rt (strip d)) as [dens|e]; [|reflexivity].
  destruct (PyFloat.to_dp width dens) as [a|e]; [|reflexivity].
  destruct (PyFloat.to_dp height dens) as [b|e]; reflexivity.
Qed.

Lemma read_density_printed (dens : Z) :
  read_density rt (Exited 0 (lit "Physical density: " ++ str_of_Z dens ++ nl))
  = Ret dens.
Proof.
  destruct (str_of_Z_head dens) as (c1 & r1 & E1 & H1).
  destruct (str_of_Z_last dens) as (c2 & r2 & E2 & H2).
  pose proof (str_of_Z_chars dens) as Hch. rewrite forallb_forall in Hch.
  destruct (labelled_line (tl density_label) (str_of_Z dens) c2 r2)
    as (A & B & C); auto.
  - intros x Hx. apply (numeral_char_facts x), Hch, Hx.
  - rewrite E1. apply lstrip_fixed, H1.
  - cbv zeta in A, B.
    assert (A' : contains density_label
                   (strip (lit "Physical density: " ++ str_of_Z dens ++ nl))
                 = true) by exact A.
    assert (B' : second_item
                   (split density_label
                      (strip (lit "Physical density: " ++ str_of_Z dens
                              ++ nl)))
                 = Ret (lit " " ++ str_of_Z dens)) by exact B.
    unfold read_density. rewrite A', B', C. apply py_int_str_of_Z.
Qed.

Lemma read_size_printed (width height : Z) :
  read_size rt (Exited 0 (lit "Physical size: " ++ str_of_Z width ++ lit "x"
                          ++ str_of_Z height ++ nl))
  = Ret (width, height).
Proof.
  destruct (str_of_Z_head width) as (c1 & r1 & E1 & H1).
  destruct (str_of_Z_last height) as (c2 & r2 & E2 & H2).
  pose proof (str_of_Z_chars width) as Hw. rewrite forallb_forall in Hw.
  pose proof (str_of_Z_chars height) as Hh. rewrite forallb_forall in Hh.
  destruct (labelled_line (tl size_label)
              (str_of_Z width ++ lit "x" ++ str_of_Z height) c2
              ((r2 ++ rev (lit "x")) ++ rev (str_of_Z width)))
    as (A & B & C); auto.
  - intros x Hx. apply in_app_or in Hx. destruct Hx as [Hx|Hx].
    + apply (numeral_char_facts x), Hw, Hx.
    + apply in_app_or in Hx. destruct Hx as [[<-|[]]|Hx]; [discriminate|].
      apply (numeral_char_facts x), Hh, Hx.
  - rewrite E1. apply lstrip_fixed, H1.
  - unfold pystr, char in *.
    rewrite !rev_app_distr, E2. reflexivity.
  - cbv zeta in A, B.
    assert (E : lit "Physical size: " ++ str_of_Z width ++ lit "x"
                ++ str_of_Z height ++ nl
                = lit "Physical size: "
                  ++ (str_of_Z width ++ lit "x" ++ str_of_Z height) ++ nl)
      by (unfold pystr, char; rewrite <- !app_assoc; reflexivity).
    assert (A' : contains size_label
                   (strip (lit "Physical size: "
                           ++ (str_of_Z width ++ lit "x" ++ str_of_Z height)
                           ++ nl))
                 = true) by exact A.
    assert (B' : second_item
                   (split size_label
                      (strip (lit "Physical size: "
                              ++ (str_of_Z width ++ lit "x"
                                  ++ str_of_Z height) ++ nl)))
                 = Ret (lit " " ++ str_of_Z width ++ lit "x"
                        ++ str_of_Z height)) by exact B.
    unfold read_size. rewrite E, A', B', C. apply parse_resolution_printed.
Qed.

(** X1: when the size query prints [Physical size: <w>x<h>] and the
    density query prints [Physical density: <d>], for any integers in
    decimal, [get_display_info] returns these very numbers as physical size
    and density, with the logical size computed from them; it returns
    [None] when that computation raises (a density of 0, a number beyond
    the range of floats).  It prints nothing. *)
Theorem get_display_info_reads_numbers
        (s : state) (width height dens : Z)
        (Hsize : spawn w (procs s) wm_size_cmd
                 = Exited 0 (lit "Physical size: " ++ str_of_Z width
                             ++ lit "x" ++ str_of_Z height ++ nl))
        (Hdens : spawn w (procs s ++ [(wm_size_cmd,
                                       spawn w (procs s) wm_size_cmd)])
                       wm_density_cmd
                 = Exited 0 (lit "Physical density: " ++ str_of_Z dens ++ nl)) :
  fst (get_display_info rt w s)
  = Ret (match PyFloat.to_dp width dens, PyFloat.to_dp height dens with
         | Ret a, Ret b =>
             Some {| physical := (width, height); logical := (a, b);
                     density := dens |}
         | _, _ => None
         end)
  /\ stdout (snd (get_display_info rt w s)) = stdout s.
Proof.
  rewrite get_display_info_run. cbv zeta.
  rewrite Hdens, Hsize.
  rewrite read_size_printed, read_density_printed.
  split; reflexivity.
Qed.

(** X2: when the size query fails (binary missing, non-zero exit) or its
    output does not hold the label [Physical size:], [get_display_info]
    returns [None] at once: the density query is never started, and nothing
    is printed. *)
Theorem get_display_info_gives_up_early (s : state)
        (Hsize : size_reported (spawn w (procs s) wm_size_cmd) = false) :
  get_display_info rt w s
  = (Ret None,
     logged s (procs s ++ [(wm_size_cmd, spawn w (procs s) wm_size_cmd)])
            (stdout s)).
Proof.
  rewrite get_display_info_run. cbv zeta.
  destruct (spawn w (procs s) wm_size_cmd) as [|rc out]; [reflexivity|].
  destruct rc; try reflexivity.
  cbn [size_reported] in Hsize. cbn [read_size]. rewrite Hsize. reflexivity.
Qed.

Lemma to_dp_density_zero (px : Z) : exists e, PyFloat.to_dp px 0 = Raise e.
Proof.
  unfold PyFloat.to_dp.
  change (PyFloat.int_truediv 0 160) with (Ret (S754_zero false)).
  unfold PyFloat.int_float_truediv.
  destruct (PyFloat.float_of_int px) as [x|e]; eexists; reflexivity.
Qed.

(** X3: a device that reports a density of 0 gets no display information:
    the division by zero is caught and [get_display_info] returns [None],
    whatever the size query gave. *)
Theorem get_display_info_density_zero (s : state)
        (Hdens : forall log,
            spawn w log wm_density_cmd
            = Exited 0 (lit "Physical density: 0" ++ nl)) :
  fst (get_display_info rt w s) = Ret None.
Proof.
  rewrite get_display_info_run. cbv zeta. rewrite Hdens.
  destruct (read_size rt _) as [[width height]|e]; [|reflexivity].
  change (lit "Physical density: 0" ++ nl)
    with (lit "Physical density: " ++ str_of_Z 0 ++ nl).
  rewrite read_density_printed. unfold make_info. cbn [fst snd].
  destruct (to_dp_density_zero width) as [e ->]. reflexivity.
Qed.

End ReadingTheDisplay.

(** ** The logical size at the usual densities *)

(** X4: at each density of the standard Android buckets and for every
    physical dimension from 0 to 4096 pixels, the logical dimension
    computed in floating point is the exact ceiling of
    [px / (density / 160)]. *)
Theorem to_dp_exact_at_standard_densities (d px : Z)
        (Hd : In d standard_densities) (Hpx : (0 <= px <= 4096)%Z) :
  PyFloat.to_dp px d = Ret (exact_dp px d).
Proof.
  assert (A : forallb
                (fun d =>
                   forallb
                     (fun n =>
                        match PyFloat.to_dp (Z.of_nat n) d with
                        | Ret a => (a =? exact_dp (Z.of_nat n) d)%Z
                        | Raise _ => false
                        end)
                     (seq 0 4097))
                standard_densities = true)
    by (vm_compute; reflexivity).
  rewrite forallb_forall in A. specialize (A d Hd).
  rewrite forallb_forall in A. specialize (A (Z.to_nat px)).
  rewrite Z2Nat.id in A by lia.
  assert (Hin : In (Z.to_nat px) (seq 0 4097)) by (apply in_seq; lia).
  specialize (A Hin).
  destruct (PyFloat.to_dp px d) as [a|e]; [|discriminate A].
  apply Z.eqb_eq in A. congruence.
Qed.

Lemma to_dp_exact_at_standard_densities_witness :
  In 420%Z standard_densities /\ (0 <= 1080 <= 4096)%Z
  /\ PyFloat.to_dp 1080 420 = Ret 412%Z.
Proof.
  assert (H : In 420%Z standard_densities)
    by (unfold standard_densities; cbn; tauto).
  split; [exact H|]. split; [lia|].
  exact (to_dp_exact_at_standard_densities 420 1080 H ltac:(lia)).
Defined.

(** ** The device information never fails *)

#[local] Instance silent_pre : PreOrder silent.
Proof.
  split.
  - intro s. unfold silent. auto.
  - intros s1 s2 s3 (A1 & B1 & C1 & D1) (A2 & B2 & C2 & D2).
    unfold silent. repeat split; congruence.
Qed.

Section DeviceInformation.

Variable rt : runtime.
Variable w : world.

Lemma silent_run (cmd : argv) : respects silent (run w cmd).
Proof.
  intro s. unfold silent, run.
  destruct (spawn w (procs s) cmd) as [|rc out]; [|destruct (rc =? 0)%Z];
    cbn; auto.
Qed.

Lemma silent_get_device_info : respects silent (get_device_info w).
Proof. unfold get_device_info. frame ltac:(apply silent_run). Qed.

Lemma silent_get_display_info : respects silent (get_display_info rt w).
Proof. unfold get_display_info. frame ltac:(apply silent_run). Qed.

(** X5: [display_device_info] returns normally whatever the device
    answers, be the binary missing, the queries failing or their output
    unreadable.  It prints the device line and then either the line
    "Resolution: Unable to detect" or the resolution line and the density
    line; it leaves the directory, the counter and the clock as they
    are. *)
Theorem display_device_info_never_fails (s : state) :
  exists model version s',
    display_device_info rt w s = (Ret tt, s')
    /\ output_dir s' = output_dir s
    /\ screenshot_count s' = screenshot_count s
    /\ clock s' = clock s
    /\ (stdout s' = stdout s ++ [device_text model version; unable_text]
        \/ exists i,
             stdout s' = stdout s ++ [device_text model version;
                                      resolution_text i; density_text i]).
Proof.
  unfold display_device_info, bind.
  destruct (get_device_info_returns w s) as [[model version] E1].
  pose proof (silent_get_device_info s) as (A1 & B1 & C1 & D1).
  destruct (get_device_info w s) as [r1 s1]. cbn [fst snd] in *. subst r1.
  unfold print at 1. unfold print_end at 1.
  match goal with |- context [get_display_info rt w ?x] =>
    set (s2 := x) end.
  destruct (get_display_info_returns rt w s2) as [info E2].
  pose proof (silent_get_display_info s2) as (A2 & B2 & C2 & D2).
  destruct (get_display_info rt w s2) as [r3 s3].
  cbn [fst snd] in *. subst r3. subst s2.
  cbn [output_dir screenshot_count stdout clock] in A2, B2, C2, D2.
  exists model, version.
  destruct info as [i|]; eexists; (split; [reflexivity|]);
    cbn [output_dir screenshot_count stdout clock];
    (repeat split; try congruence).
  - right. exists i. rewrite C2, C1.
    unfold device_text, resolution_text, density_text.
    rewrite <- !app_assoc. reflexivity.
  - left. rewrite C2, C1. unfold device_text, unable_text.
    rewrite <- !app_assoc. reflexivity.
Qed.

End DeviceInformation.

(** ** More on one capture *)

Section CaptureOutcomes.

Variable rt : runtime.
Variable w : world.




(** X7: a missing [adb] binary is not handled by [capture_screenshot]: when
    the [k]-th command is the first not to run and finds no binary, the
    method raises [FileNotFoundError] after the commands before it; no
    failure line is printed, and the counter has advanced all the same. *)
Theorem capture_screenshot_missing_binary
        (name : option pystr) (s : state) (k : nat)
        (Hk : (k < 3)%nat)
        (Hprev : forall j, (j < k)%nat ->
                 exit_ok (outcome w (procs s) (capture_cmds rt w name s) j)
                 = true)
        (Hmiss : outcome w (procs s) (capture_cmds rt w name s) k = NotFound) :
  capture_screenshot rt w name s
  = (Raise FileNotFoundError,
     captured s
       (run_all w (procs s) (firstn (S k) (capture_cmds rt w name s)))
       (stdout s ++ [capturing_line])).
Proof.
  rewrite capture_screenshot_run. revert Hprev Hmiss.
  unfold outcome, capture_cmds. cbv zeta. intros Hprev Hmiss.
  destruct k as [|[|[|k]]]; [| | |lia].
  - cbn [firstn nth run_all] in Hmiss |- *. rewrite Hmiss. reflexivity.
  - pose proof (Hprev 0%nat ltac:(lia)) as H0.
    cbn [firstn nth run_all] in H0, Hmiss |- *.
    destruct (exit_ok_inv _ H0) as [out1 E1].
    rewrite E1 in Hmiss |- *. rewrite Hmiss. reflexivity.
  - pose proof (Hprev 0%nat ltac:(lia)) as H0.
    pose proof (Hprev 1%nat ltac:(lia)) as H1.
    cbn [firstn nth run_all] in H0, H1, Hmiss |- *.
    destruct (exit_ok_inv _ H0) as [out1 E1].
    rewrite E1 in H1, Hmiss |- *.
    destruct (exit_ok_inv _ H1) as [out2 E2].
    rewrite E2 in Hmiss |- *. rewrite Hmiss. reflexivity.
Qed.

End CaptureOutcomes.


Lemma capture_screenshot_missing_binary_witness :
  outcome no_adb []
    (capture_cmds sample_runtime no_adb None (idle (lit "shots") 0)) 0
  = NotFound
  /\ capture_screenshot sample_runtime no_adb None (idle (lit "shots") 0)
     = (Raise FileNotFoundError,
        captured (idle (lit "shots") 0) [(screencap_cmd, NotFound)]
                 [capturing_line]).
Proof.
  split; [reflexivity|].
  refine (capture_screenshot_missing_binary sample_runtime no_adb None
            (idle (lit "shots") 0) 0 _ _ _).
  - lia.
  - intros j Hj. lia.
  - reflexivity.
Defined.

(** ** The session as a whole *)

Section WholeSession.

Variable rt : runtime.
Variable w : world.

Lemma guarded_loop_nil (s : state) :
  guarded_loop rt w [] s = (Raise EOFError, prompted s).
Proof.
  unfold guarded_loop, try_except. cbn [interactive_loop].
  unfold bind. rewrite print_prompt. reflexivity.
Qed.

(** One turn of the guarded loop on a line. *)
Lemma guarded_loop_step (text : pystr) (rest : list input_event) (s : state) :
  guarded_loop rt w (Line text :: rest) s =
  if quits rt (Line text) then (Ret tt, with_summary rt nl (prompted s))
  else
    match turn rt w text (prompted s) with
    | (Ret _, s1) => guarded_loop rt w rest s1
    | (Raise e, s1) =>
        match e with
        | KeyboardInterrupt => interrupt_summary rt s1
        | _ => (Raise e, s1)
        end
    end.
Proof.
  cbn [quits].
  destruct (PyStr.eqb (lower rt (strip text)) (lit "q")) eqn:Q.
  - apply guarded_loop_quit, Q.
  - unfold guarded_loop, try_except, turn.
    rewrite interactive_loop_line. unfold bind at 1.
    rewrite print_prompt, Q.
    destruct (PyStr.eqb (lower rt (strip text)) (lit "i")).
    + unfold bind.
      destruct (display_device_info rt w (prompted s)) as [[[]|e] s1];
        [reflexivity | destruct e; reflexivity].
    + destruct (PyStr.eqb (strip text) []); unfold bind, ret;
        match goal with |- context [capture_screenshot rt w ?n ?x] =>
          destruct (capture_screenshot rt w n x) as [[b|e] s1] end;
        try reflexivity; destruct e; reflexivity.
Qed.

Lemma capture_screenshot_returns (name : option pystr) (s : state) :
  adb_installed w ->
  exists b s1,
    capture_screenshot rt w name s = (Ret b, s1)
    /\ screenshot_count s1 = S (screenshot_count s)
    /\ output_dir s1 = output_dir s.
Proof.
  intro H. rewrite capture_screenshot_run. cbv zeta.
  repeat match goal with
         | |- context [match spawn w ?l ?c with _ => _ end] =>
             let E := fresh "E" in
             destruct (spawn w l c) eqn:E; [exfalso; exact (H _ _ E)|]
         | |- context [if ?b then _ else _] => destruct b
         end; eexists; eexists; (split; [reflexivity|]); split; reflexivity.
Qed.

(** With the binary there, a turn returns; it adds one to the counter
    unless the line was i. *)
Lemma turn_returns (text : pystr) (s : state) :
  adb_installed w ->
  exists s1,
    turn rt w text s = (Ret tt, s1)
    /\ screenshot_count s1
       = (screenshot_count s
          + (if PyStr.eqb (lower rt (strip text)) (lit "i") then 0 else 1))%nat
    /\ output_dir s1 = output_dir s.
Proof.
  intro H. unfold turn.
  destruct (PyStr.eqb (lower rt (strip text)) (lit "i")).
  - destruct (display_device_info_once rt w s) as (s1 & E & A & B & _).
    exists s1. rewrite E, B, Nat.add_0_r. auto.
  - destruct (PyStr.eqb (strip text) []);
      match goal with |- context [capture_screenshot rt w ?n] =>
        destruct (capture_screenshot_returns n s H) as (b & s1 & E & B & A)
      end;
      exists s1; unfold bind, ret; rewrite E, B, Nat.add_1_r; auto.
Qed.

(** X8: while the binary is there, the counter at the end of a session is
    the counter at its start plus the number of captures asked for (lines
    other than i before the first q or Ctrl-C), whether these captures
    succeeded or failed; when the session is ended by q or Ctrl-C, that
    number is the one the summary reports.  The output directory does not
    change. *)
Theorem session_counts_requests (inp : list input_event) (s : state)
        (Hadb : adb_installed w) :
  screenshot_count (snd (guarded_loop rt w inp s))
  = (screenshot_count s + requested rt inp)%nat
  /\ output_dir (snd (guarded_loop rt w inp s)) = output_dir s
  /\ (existsb (quits rt) inp = true ->
      exists out lead,
        stdout (snd (guarded_loop rt w inp s))
        = out ++ [lead ++ done_line (screenshot_count s + requested rt inp)
                  ++ nl;
                  location_line rt (output_dir s) ++ nl]).
Proof.
  revert s. induction inp as [|e rest IH]; intro s.
  - rewrite guarded_loop_nil. cbn [requested existsb fst snd prompted logged
                                   screenshot_count output_dir].
    rewrite Nat.add_0_r. repeat split. discriminate.
  - destruct e as [text|].
    + rewrite guarded_loop_step. cbn [existsb].
      destruct (quits rt (Line text)) eqn:Q.
      * cbn [requested]. rewrite Q.
        cbn [orb fst snd with_summary prompted logged screenshot_count
             output_dir stdout].
        rewrite Nat.add_0_r. repeat split.
        intros _. exists (stdout s ++ [prompt]), nl.
        rewrite <- !app_assoc. reflexivity.
      * destruct (turn_returns text (prompted s) Hadb) as (s1 & E & B & A).
        rewrite E. destruct (IH s1) as (I1 & I2 & I4).
        cbn [prompted logged screenshot_count output_dir] in B, A.
        assert (Hn : (screenshot_count s1 + requested rt rest
                      = screenshot_count s
                        + requested rt (Line text :: rest))%nat).
        { cbn [requested]. rewrite Q, B.
          destruct (PyStr.eqb (lower rt (strip text)) (lit "i")); lia. }
        rewrite Hn in I1, I4. rewrite A in I2, I4.
        cbn [orb]. auto.
    + rewrite guarded_loop_interrupt.
      cbn [existsb requested quits orb fst snd with_summary prompted logged
           screenshot_count output_dir stdout].
      rewrite Nat.add_0_r. repeat split.
      intros _. exists (stdout s ++ [prompt]), (nl ++ nl).
      rewrite <- !app_assoc. reflexivity.
Qed.

(** X9: while the binary is there, a session returns normally when its
    input holds a line q or a Ctrl-C, and raises [EOFError] when the input
    ends without one. *)
Theorem session_ends (inp : list input_event) (s : state)
        (Hadb : adb_installed w) :
  fst (guarded_loop rt w inp s)
  = if existsb (quits rt) inp then Ret tt else Raise EOFError.
Proof.
  revert s. induction inp as [|e rest IH]; intro s.
  - rewrite guarded_loop_nil. reflexivity.
  - destruct e as [text|].
    + rewrite guarded_loop_step. cbn [existsb].
      destruct (quits rt (Line text)); [reflexivity|].
      destruct (turn_returns text (prompted s) Hadb) as (s1 & E & _).
      rewrite E. apply IH.
    + rewrite guarded_loop_interrupt. reflexivity.
Qed.

(** X10: wherever in a session Ctrl-C arrives at the prompt, the session
    ends as it would have on q typed there: same result, same processes,
    same counter, and the same output but for one more empty line before
    the summary. *)
Theorem interrupt_like_q (pre rest : list input_event) (s : state) :
  let a := guarded_loop rt w (pre ++ Interrupt :: rest) s in
  let b := guarded_loop rt w (pre ++ Line (lit "q") :: rest) s in
  fst a = fst b
  /\ procs (snd a) = procs (snd b)
  /\ screenshot_count (snd a) = screenshot_count (snd b)
  /\ (stdout (snd a) = stdout (snd b)
      \/ exists out count dir,
           stdout (snd a)
           = out ++ [(nl ++ nl) ++ done_line count ++ nl;
                     location_line rt dir ++ nl]
           /\ stdout (snd b)
              = out ++ [nl ++ done_line count ++ nl;
                        location_line rt dir ++ nl]).
Proof.
  revert s. induction pre as [|e pre IH]; intro s; cbv zeta.
  - cbn [app]. rewrite guarded_loop_interrupt.
    rewrite guarded_loop_quit by (vm_compute; reflexivity).
    cbn [fst snd with_summary prompted logged procs screenshot_count stdout].
    repeat split. right.
    exists (stdout s ++ [prompt]), (screenshot_count s), (output_dir s).
    split; reflexivity.
  - cbn [app]. destruct e as [text|].
    + rewrite !guarded_loop_step.
      destruct (quits rt (Line text)); [repeat split; left; reflexivity|].
      destruct (turn rt w text (prompted s)) as [[[]|e] s1].
      * apply IH.
      * repeat split; left; reflexivity.
    + rewrite !guarded_loop_interrupt. repeat split. left. reflexivity.
Qed.

End WholeSession.

Lemma phone_1080_installed : adb_installed phone_1080.
Proof.
  intros log cmd. cbn [phone_1080 scripted_world spawn].
  unfold answer.
  repeat match goal with
         | |- context [argv_eqb ?a cmd] => destruct (argv_eqb a cmd)
         end; discriminate.
Qed.

Lemma session_counts_requests_witness :
  screenshot_count
    (snd (guarded_loop sample_runtime phone_1080
            [Line (lit "login"); Line (lit "i"); Line []; Line (lit "q")]
            (idle (lit "shots") 0)))
  = (0 + 2)%nat.
Proof.
  exact (proj1 (session_counts_requests sample_runtime phone_1080
                  [Line (lit "login"); Line (lit "i"); Line [];
                   Line (lit "q")]
                  (idle (lit "shots") 0) phone_1080_installed)).
Defined.

Lemma session_ends_witness :
  fst (guarded_loop sample_runtime phone_1080 [Line (lit "login")]
                    (idle (lit "shots") 0))
  = Raise EOFError.
Proof.
  exact (session_ends sample_runtime phone_1080 [Line (lit "login")]
                      (idle (lit "shots") 0) phone_1080_installed).
Defined.

(** ** Starting a session, and single-shot mode *)

Lemma scripted_installed (script : list (argv * proc_outcome)) (t : datetime) :
  (forall c o, In (c, o) script -> o <> NotFound) ->
  adb_installed (scripted_world script t).
Proof.
  intros H log cmd. cbn [scripted_world spawn].
  induction script as [|[c o] script IH]; [discriminate|].
  cbn [answer]. destruct (argv_eqb c cmd).
  - apply (H c o). left. reflexivity.
  - apply IH. intros c' o' Hin. apply (H c' o'). right. exact Hin.
Qed.

Section Starting.

Variable rt : runtime.
Variable w : world.

(** The connection check when no device is listed. *)
Lemma check_adb_connection_refused (s : state) :
  device_listed (spawn w (procs s) devices_cmd) = false ->
  exists lines,
    check_adb_connection rt w s
    = (Ret false,
       logged s (procs s ++ [(devices_cmd, spawn w (procs s) devices_cmd)])
              (stdout s ++ lines))
    /\ info_prints lines = 0%nat.
Proof.
  intro H. rewrite check_adb_connection_run. cbv zeta.
  destruct (spawn w (procs s) devices_cmd) as [|rc out].
  - exists adb_missing_guidance. split; reflexivity.
  - destruct rc as [|p|p].
    + cbn [device_listed] in H. cbn [Z.eqb].
      destruct (connected_devices out) as [|d ds]; [|discriminate H].
      exists no_device_guidance. split; reflexivity.
    + eexists. split; reflexivity.
    + eexists. split; reflexivity.
Qed.

(** The connection check when a device is listed. *)
Lemma check_adb_connection_accepts (s : state) :
  device_listed (spawn w (procs s) devices_cmd) = true ->
  exists s1,
    check_adb_connection rt w s = (Ret true, s1)
    /\ screenshot_count s1 = screenshot_count s
    /\ output_dir s1 = output_dir s.
Proof.
  intro H. rewrite check_adb_connection_run. cbv zeta.
  destruct (spawn w (procs s) devices_cmd) as [|rc out]; [discriminate H|].
  destruct rc as [|p|p]; try discriminate H.
  cbn [device_listed] in H. cbn [Z.eqb].
  destruct (connected_devices out) as [|d ds] eqn:E; [discriminate H|].
  assert (Hd : In d (connected_devices out)) by (rewrite E; left; reflexivity).
  unfold connected_devices in Hd. apply filter_In in Hd.
  destruct Hd as [_ Hd]. apply andb_true_iff in Hd. destruct Hd as [Hd _].
  apply negb_true_iff in Hd.
  destruct (split_ws d) as [|serial rest] eqn:Ew.
  - exfalso. apply (split_ws_nonblank d); [|exact Ew].
    intro Hs. rewrite Hs, eqb_refl in Hd. discriminate Hd.
  - eexists. split; [reflexivity|]. split; reflexivity.
Qed.

Lemma bind_print {A} (t : pystr) (k : unit -> M A) (s : state) :
  bind (print t) k s = k tt (snd (print t s)).
Proof. reflexivity. Qed.

Lemma run_interactive_refused (inp : list input_event) (s s1 : state) :
  check_adb_connection rt w (snd (banner s)) = (Ret false, s1) ->
  run_interactive rt w inp s = (Ret tt, s1).
Proof.
  intro H. unfold run_interactive. rewrite !bind_print.
  unfold bind at 1.
  match goal with |- context [check_adb_connection rt w ?x] =>
    change x with (snd (banner s)) end.
  rewrite H. reflexivity.
Qed.

(** X11: when the connection check finds no device (binary missing, [adb]
    failing, or no device listed), [run_interactive] returns at once: it
    has started the enumeration and no other process, printed no device
    information, taken no screenshot, and read nothing from its input. *)
Theorem run_interactive_without_device (inp : list input_event) (s : state)
        (Hdev : device_listed (spawn w (procs s) devices_cmd) = false) :
  fst (run_interactive rt w inp s) = Ret tt
  /\ procs (snd (run_interactive rt w inp s))
     = procs s ++ [(devices_cmd, spawn w (procs s) devices_cmd)]
  /\ screenshot_count (snd (run_interactive rt w inp s)) = screenshot_count s
  /\ info_prints (stdout (snd (run_interactive rt w inp s)))
     = info_prints (stdout s)
  /\ run_interactive rt w inp s = run_interactive rt w [] s.
Proof.
  destruct (check_adb_connection_refused (snd (banner s)) Hdev)
    as (lines & E & Hl).
  rewrite (run_interactive_refused inp _ _ E).
  rewrite (run_interactive_refused [] _ _ E).
  assert (Hb : exists lines0,
             stdout (snd (banner s)) = stdout s ++ lines0
             /\ info_prints lines0 = 0%nat).
  { eexists. split.
    - unfold banner, bind, print, print_end. cbn [snd stdout].
      rewrite <- !app_assoc. reflexivity.
    - vm_compute. reflexivity. }
  destruct Hb as (lines0 & Hb & H0).
  cbn [fst snd logged procs screenshot_count stdout].
  repeat split.
  rewrite Hb, !info_prints_app, Hl, H0. lia.
Qed.

(** X12: in single-shot mode, when the connection check finds no device,
    [main] exits with status 1; the enumeration is the only process it
    started and no screenshot was attempted. *)
Theorem main_exits_without_device
        (a : args) (single : pystr) (inp : list input_event)
        (Hdir : mkdir w (arg_output a) = None)
        (Hsingle : arg_single a = Some single) (Hne : single <> [])
        (Hdev : device_listed (spawn w [] devices_cmd) = false) :
  fst (main rt w a inp) = Raise (SystemExit 1)
  /\ procs (snd (main rt w a inp)) = [(devices_cmd, spawn w [] devices_cmd)]
  /\ screenshot_count (snd (main rt w a inp)) = 0%nat.
Proof.
  destruct (check_adb_connection_refused (new_tool (arg_output a)) Hdev)
    as (lines & E & _).
  assert (M : main rt w a inp
              = (Raise (SystemExit 1),
                 logged (new_tool (arg_output a))
                        ([] ++ [(devices_cmd, spawn w [] devices_cmd)])
                        ([] ++ lines))).
  { unfold main. rewrite Hdir, Hsingle.
    destruct single as [|c r]; [congruence|].
    unfold bind at 1. rewrite E. reflexivity. }
  rewrite M. repeat split.
Qed.

(** X13: in single-shot mode with a device listed and the binary there,
    [main] returns normally after exactly one capture attempt, whether the
    capture succeeded or failed: the result of [capture_screenshot] is not
    looked at. *)
Theorem main_single_shot_returns
        (a : args) (single : pystr) (inp : list input_event)
        (Hdir : mkdir w (arg_output a) = None)
        (Hsingle : arg_single a = Some single) (Hne : single <> [])
        (Hdev : device_listed (spawn w [] devices_cmd) = true)
        (Hadb : adb_installed w) :
  fst (main rt w a inp) = Ret tt
  /\ screenshot_count (snd (main rt w a inp)) = 1%nat.
Proof.
  destruct (check_adb_connection_accepts (new_tool (arg_output a)) Hdev)
    as (s1 & E & B & _).
  destruct (capture_screenshot_returns rt w
              (Some (single_screen_name (arg_name a) single)) s1 Hadb)
    as (b & s2 & E2 & B2 & _).
  assert (M : main rt w a inp = (Ret tt, s2)).
  { unfold main. rewrite Hdir, Hsingle.
    destruct single as [|c r]; [congruence|].
    unfold bind at 1. rewrite E. cbn [negb].
    unfold bind, ret. rewrite E2. reflexivity. }
  rewrite M. cbn [fst snd]. rewrite B2, B. split; reflexivity.
Qed.

End Starting.

Lemma run_interactive_without_device_witness :
  device_listed (spawn no_adb [] devices_cmd) = false
  /\ run_interactive sample_runtime no_adb [Line (lit "login")]
                     (idle (lit "shots") 0)
     = run_interactive sample_runtime no_adb [] (idle (lit "shots") 0).
Proof.
  split; [reflexivity|].
  exact (proj2 (proj2 (proj2 (proj2
           (run_interactive_without_device sample_runtime no_adb
              [Line (lit "login")] (idle (lit "shots") 0) eq_refl))))).
Defined.

Lemma main_exits_without_device_witness :
  device_listed (spawn no_device [] devices_cmd) = false
  /\ fst (main sample_runtime no_device single_login []) = Raise (SystemExit 1).
Proof.
  split; [vm_compute; reflexivity|].
  refine (proj1 (main_exits_without_device sample_runtime no_device
                   single_login (lit "login") [] _ _ _ _)).
  - reflexivity.
  - reflexivity.
  - discriminate.
  - vm_compute. reflexivity.
Defined.

Lemma main_single_shot_returns_witness :
  exit_nonzero (spawn broken_screencap [] screencap_cmd) = true
  /\ fst (main sample_runtime broken_screencap single_login []) = Ret tt.
Proof.
  split; [vm_compute; reflexivity|].
  refine (proj1 (main_single_shot_returns sample_runtime broken_screencap
                   single_login (lit "login") [] _ _ _ _ _)).
  - reflexivity.
  - reflexivity.
  - discriminate.
  - vm_compute. reflexivity.
  - apply scripted_installed. intros c o [H|[H|[]]]; inversion H; discriminate.
Defined.

(** ** File names *)

Section FileNames.

Variable rt : runtime.

Lemma allowed_underscore : allowed rt 95%N = true.
Proof. unfold allowed. rewrite N.eqb_refl. apply orb_true_r. Qed.

Lemma clean_name_chars (name : pystr) :
  forallb (allowed rt) (clean_name rt name) = true.
Proof.
  apply forallb_forall. intros c Hc. unfold clean_name in Hc.
  apply in_map_iff in Hc. destruct Hc as (x & <- & _).
  fold (allowed rt x). destruct (allowed rt x) eqn:E;
    [exact E | apply allowed_underscore].
Qed.

Lemma allowed_not_separator (c : char) :
  allowed rt c = true ->
  (negb (c =? 47) && negb (c =? 92) && negb (c =? 46) && negb (c =? 32))%N
  = true.
Proof.
  intro H.
  destruct (c =? 47)%N eqn:E1;
    [apply N.eqb_eq in E1; subst c; discriminate H|].
  destruct (c =? 92)%N eqn:E2;
    [apply N.eqb_eq in E2; subst c; discriminate H|].
  destruct (c =? 46)%N eqn:E3;
    [apply N.eqb_eq in E3; subst c; discriminate H|].
  destruct (c =? 32)%N eqn:E4;
    [apply N.eqb_eq in E4; subst c; discriminate H|].
  reflexivity.
Qed.

(** X14: a cleaned screen name holds only characters that are alphanumeric,
    a hyphen or an underscore, so no slash, backslash, dot or space;
    cleaning a cleaned name changes nothing. *)
Theorem clean_name_is_clean (name : pystr) :
  forallb (allowed rt) (clean_name rt name) = true
  /\ forallb (fun c => negb (c =? 47) && negb (c =? 92) && negb (c =? 46)
                       && negb (c =? 32))%N
             (clean_name rt name) = true
  /\ clean_name rt (clean_name rt name) = clean_name rt name.
Proof.
  pose proof (clean_name_chars name) as H. split; [exact H|]. split.
  - rewrite forallb_forall in *. intros c Hc.
    apply allowed_not_separator, H, Hc.
  - rewrite forallb_forall in H.
    unfold clean_name at 1. rewrite <- (map_id (clean_name rt name)) at 2.
    apply map_ext_in. intros c Hc. fold (allowed rt c).
    rewrite (H c Hc). reflexivity.
Qed.

Lemma zero_pad_digits (width n : nat) :
  forallb is_digit (zero_pad width n) = true.
Proof.
  unfold zero_pad. rewrite forallb_app. apply andb_true_iff. split.
  - apply forallb_forall. intros c Hc. apply repeat_spec in Hc. subst c.
    reflexivity.
  - unfold str_of_nat. destruct (Nat.to_uint n); [reflexivity|..];
      match goal with
      | |- context [NilZero.string_of_uint ?x] =>
          change (NilZero.string_of_uint x) with (NilEmpty.string_of_uint x);
          apply numeral_digits
      end.
Qed.

Lemma digits_no_slash (s : pystr) :
  forallb is_digit s = true ->
  forallb (fun c => negb (c =? 47)%N) s = true.
Proof.
  rewrite !forallb_forall. intros H c Hc. specialize (H c Hc).
  unfold is_digit in H. apply andb_true_iff in H. destruct H as [H _].
  apply N.leb_le in H. apply negb_true_iff, N.eqb_neq. lia.
Qed.

Lemma strftime_no_slash (d : datetime) :
  forallb (fun c => negb (c =? 47)%N) (strftime d) = true.
Proof.
  unfold strftime. rewrite !forallb_app.
  rewrite !(digits_no_slash _ (zero_pad_digits _ _)). reflexivity.
Qed.

(** X15: the file name of a capture, named or not, never holds a slash: the
    screenshot goes into the output directory itself, whatever screen name
    was typed. *)
Theorem filename_has_no_slash
        (name : option pystr) (count : nat) (d : datetime) :
  forallb (fun c => negb (c =? 47)%N) (filename rt name count (strftime d))
  = true.
Proof.
  assert (Hauto : forallb (fun c => negb (c =? 47)%N)
                    (lit "screenshot_" ++ zero_pad 3 count ++ lit "_"
                     ++ strftime d ++ lit ".png") = true).
  { rewrite !forallb_app, strftime_no_slash,
      (digits_no_slash _ (zero_pad_digits _ _)). reflexivity. }
  unfold filename. destruct name as [[|c r]|]; try exact Hauto.
  assert (Hn : forallb (fun x => negb (x =? 47)%N) (clean_name rt (c :: r))
               = true).
  { pose proof (clean_name_chars (c :: r)) as H.
    rewrite forallb_forall in *. intros x Hx.
    pose proof (allowed_not_separator x (H x Hx)) as A.
    destruct (x =? 47)%N; [discriminate A|reflexivity]. }
  rewrite !forallb_app, strftime_no_slash.
  unfold pystr, char in *. rewrite Hn. reflexivity.
Qed.

(** X16: two captures without a screen name whose counters differ get
    different file names, even within the same second. *)
Theorem auto_names_distinct (c1 c2 : nat) (ts : pystr) (Hc : c1 <> c2) :
  filename rt None c1 ts <> filename rt None c2 ts.
Proof.
  unfold filename. intro E.
  apply app_inv_head in E. rewrite !app_assoc in E.
  apply app_inv_tail in E. apply app_inv_tail in E. apply app_inv_tail in E.
  apply (f_equal (parse_digits rt 0 false)) in E.
  rewrite !parse_zero_pad in E. injection E as E.
  apply Nat2N.inj in E. contradiction.
Qed.

End FileNames.

Lemma auto_names_distinct_witness :
  1%nat <> 2%nat
  /\ filename sample_runtime None 1 (lit "20240101_120000")
     <> filename sample_runtime None 2 (lit "20240101_120000").
Proof.
  assert (H : 1%nat <> 2%nat) by discriminate.
  split; [exact H|].
  exact (auto_names_distinct sample_runtime 1 2 (lit "20240101_120000") H).
Defined.

(** ** The timestamp *)




(** ** Concrete runs of the display queries *)

Lemma get_display_info_reads_numbers_witness :
  fst (get_display_info sample_runtime phone_1080 (idle (lit "shots") 0))
  = Ret (match PyFloat.to_dp 1080 420, PyFloat.to_dp 2400 420 with
         | Ret a, Ret b =>
             Some {| physical := (1080, 2400)%Z; logical := (a, b);
                     density := 420%Z |}
         | _, _ => None
         end).
Proof.
  refine (proj1 (get_display_info_reads_numbers sample_runtime phone_1080
                   (idle (lit "shots") 0) 1080 2400 420 _ _));
    vm_compute; reflexivity.
Defined.

Lemma get_display_info_gives_up_early_witness :
  size_reported (spawn no_adb [] wm_size_cmd) = false
  /\ fst (get_display_info sample_runtime no_adb (idle (lit "shots") 0))
     = Ret None.
Proof.
  split; [reflexivity|].
  exact (f_equal fst
           (get_display_info_gives_up_early sample_runtime no_adb
              (idle (lit "shots") 0) eq_refl)).
Defined.

Lemma get_display_info_density_zero_witness :
  fst (get_display_info sample_runtime zero_density (idle (lit "shots") 0))
  = Ret None.
Proof.
  refine (get_display_info_density_zero sample_runtime zero_density
            (idle (lit "shots") 0) _).
  intro log. vm_compute. reflexivity.
Defined.
